(** * modernbuilder: the builder document model and its drop handler

    A shallow embedding of the parts of the website builder that carry
    structure: the element tree and its lookup ([elementUtils.ts]), the
    canvas drop handler ([CanvasDragDropHandler]), and the page/document
    code of the builder page ([Builder.tsx]): required pages, page content
    loading and committing, and the save-status text.

    JavaScript values are modelled by what the code can observe of them:
    [undefined]/[null]/string identifiers as [JsId], optional fields as
    [option], integers as [Z], objects used as dictionaries as [gmap]. *)

From Stdlib Require Import ZArith Lia Ascii.
From stdpp Require Import base strings list gmap pretty.
#[local] Set Warnings "-register-all".
#[local] Open Scope string_scope.
#[local] Open Scope list_scope.

(** ** JavaScript helpers *)

Module Js.

(** A value that is [undefined], [null] or a string (an id read from a
    JSON payload or passed on as an optional argument). *)
Inductive JsId : Type :=
| JUndefined
| JNullId
| JString (s : string).

(** Truthiness of an optional string: [undefined] and the empty string are falsy. *)
Definition truthy (o : option string) : bool :=
  match o with
  | Some s => negb (String.eqb s EmptyString)
  | None => false
  end.

(** [a === b] for an optional string against a [JsId]. *)
Definition strictEq (a : JsId) (b : option string) : bool :=
  match a, b with
  | JUndefined, None => true
  | JString s, Some s' => String.eqb s s'
  | _, _ => false
  end.

(** [a !== b] on optional strings. *)
Definition strictNeq (a b : option string) : bool :=
  match a, b with
  | None, None => false
  | Some s, Some s' => negb (String.eqb s s')
  | _, _ => true
  end.

Definition ofOption (o : option string) : JsId :=
  match o with
  | Some s => JString s
  | None => JUndefined
  end.

(** [Array.prototype.findIndex]: the first index whose element satisfies
    [p], [-1] when there is none. *)
Fixpoint findIndexFrom {A : Type} (p : A -> bool) (i : Z) (l : list A) : Z :=
  match l with
  | [] => -1
  | x :: rest => if p x then i else findIndexFrom p (i + 1) rest
  end.

Definition findIndex {A : Type} (p : A -> bool) (l : list A) : Z :=
  findIndexFrom p 0 l.

(** [Array.prototype.includes] on strings. *)
Definition includes (l : list string) (s : string) : bool :=
  existsb (String.eqb s) l.

(** [String.prototype.toLowerCase], on the ASCII range. *)
Definition lowerAscii (c : ascii) : ascii :=
  let n := Ascii.nat_of_ascii c in
  if (65 <=? n)%nat && (n <=? 90)%nat then Ascii.ascii_of_nat (n + 32) else c.

Fixpoint toLowerCase (s : string) : string :=
  match s with
  | EmptyString => EmptyString
  | String c rest => String (lowerAscii c) (toLowerCase rest)
  end.

End Js.
Import Js.

(** ** The element tree (contexts/builder/types) *)

(** JSON-like property values. *)
Inductive JValue : Type :=
| JNull
| JBool (b : bool)
| JNum (n : Z)
| JStr (s : string)
| JArr (items : list JValue)
| JObj (fields : list (string * JValue)).

(** An object used as an open record of properties, keys in insertion
    order. *)
Definition Props : Type := list (string * JValue).

Inductive BuilderElement : Type := mkElement {
  el_id : string;
  el_type : string;
  el_content : option string;
  el_props : Props;
  el_children : option (list BuilderElement)
}.

(** Induction over the element tree, with the property at hand for every
    child of a node. *)

Section ElementInduction.

Variable P : BuilderElement -> Prop.
Hypothesis leaf : forall i t c p, P (mkElement i t c p None).
Hypothesis node : forall i t c p ch, Forall P ch -> P (mkElement i t c p (Some ch)).

Fixpoint element_ind_nested (e : BuilderElement) : P e :=
  match e with
  | mkElement i t c p children =>
      match children return P (mkElement i t c p children) with
      | None => leaf i t c p
      | Some ch =>
          node i t c p ch
            ((fix all (l : list BuilderElement) : Forall P l :=
                match l with
                | [] => @List.Forall_nil _ P
                | x :: xs => @List.Forall_cons _ P x xs (element_ind_nested x) (all xs)
                end) ch)
      end
  end.

End ElementInduction.

(** Object spread [{...a, ...b}]: the keys of [a] in order, each taking
    the value [b] gives it when [b] has the key, then the keys only [b]
    has. *)
Definition propLookup (k : string) (p : Props) : option JValue :=
  snd <$> List.find (fun kv => String.eqb (fst kv) k) p.

Definition spread (a b : Props) : Props :=
  List.map (fun kv => (fst kv, default (snd kv) (propLookup (fst kv) b))) a
  ++ List.filter (fun kv => negb (existsb (fun ka => String.eqb (fst ka) (fst kv)) a)) b.

(** ** contexts/builder/elementUtils.ts *)

Definition premiumElements : list string :=
  [ "PricingElement"; "FeatureTableElement"; "AnimatedHeroElement";
    "TestimonialsCarouselElement"; "AdvancedGalleryElement";
    "TeamMembersElement"; "StatisticsElement"; "AnimatedCounterElement";
    "ParallaxSectionElement"; "InteractiveCardsElement";
    "AnimatedTimelineElement"; "FloatingShapesElement";
    "GradientBackgroundElement"; "fadeInElement"; "slideInElement";
    "scaleInElement"; "animatedHeading"; "animatedSection" ].

Definition isPremiumElement (elementType : string) : bool :=
  includes premiumElements elementType.

Definition enterpriseElements : list string :=
  [ "CustomFormElement"; "3DModelElement"; "DataVisualizationElement";
    "InteractiveMapElement"; "AnimatedParticlesElement";
    "WebGLBackgroundElement"; "LottieAnimationElement";
    "AdvancedChartElement"; "VideoBackgroundElement"; "SVGAnimationElement";
    "ScrollTriggeredElement"; "particlesBackground"; "scrollReveal" ].

Definition isEnterpriseElement (elementType : string) : bool :=
  includes enterpriseElements elementType.

(** One iteration of the [for] loop of [findElementById]: the element
    itself, then its children when it has any. *)
Fixpoint findInElement (id : string) (element : BuilderElement) : option BuilderElement :=
  if String.eqb (el_id element) id then Some element
  else
    match el_children element with
    | Some children =>
        (fix loop (l : list BuilderElement) : option BuilderElement :=
           match l with
           | [] => None
           | c :: cs =>
               match findInElement id c with
               | Some found => Some found
               | None => loop cs
               end
           end) children
    | None => None
    end.

(** [findElementById(elements, id)]; [null] is [None]. *)
Fixpoint findElementById (elements : list BuilderElement) (id : string) : option BuilderElement :=
  match elements with
  | [] => None
  | element :: rest =>
      match findInElement id element with
      | Some found => Some found
      | None => findElementById rest id
      end
  end.

Definition sameId (id : string) (el : BuilderElement) : bool :=
  String.eqb (el_id el) id.

(** The nodes of a tree in depth-first pre-order: a node, then the
    pre-order of each of its children from first to last. *)
Fixpoint preorderOf (e : BuilderElement) : list BuilderElement :=
  e :: match el_children e with
       | Some ch => concat (List.map preorderOf ch)
       | None => []
       end.

Definition preorder (elements : list BuilderElement) : list BuilderElement :=
  concat (List.map preorderOf elements).

(** How often an id occurs in the whole tree. *)
Definition occurrences (id : string) (elements : list BuilderElement) : nat :=
  length (List.filter (sameId id) (preorder elements)).

(** ** components/builder/canvas: CanvasDragDropHandler *)

(** The object read from the drag payload,
    [{id?, type, content?, props?, parentId?, sourceIndex?}]. *)
Record ElementData : Type := mkElementData {
  ed_id : option string;
  ed_type : string;
  ed_content : option string;
  ed_props : option Props;
  ed_parentId : JsId;
  ed_sourceIndex : option Z
}.

(** What [e.dataTransfer.getData] and [JSON.parse] make of a drop event:
    no data at all, text that is not JSON, the JSON text [null], or an
    object. *)
Inductive DropData : Type :=
| NoData
| Unparseable
| ParsedNull
| Parsed (elementData : ElementData).

(** The [dropTarget] state: the hovered element and the half hovered. *)
Record DropTarget : Type := mkDropTarget {
  dt_top : bool;
  dt_element : option string
}.

(** What the handler closes over: the tree of the builder context, the
    [containerId] prop, the drop target and the preview flag. *)
Record Canvas : Type := mkCanvas {
  elements : list BuilderElement;
  containerId : option string;
  dropTarget : DropTarget;
  isPreviewMode : bool
}.

(** The second argument of [addElement] as the handler passes it: a
    number, or a container id, [null] or [undefined]. *)
Inductive AddPosition : Type :=
| AtIndex (index : Z)
| AtId (container : JsId).

(** The calls into the builder context. *)
Inductive StoreCall : Type :=
| addElement (element : BuilderElement) (second : AddPosition) (third : JsId)
| moveElement (sourceIndex destinationIndex : Z) (third : JsId)
| removeElement (id : string).

(** Everything the handler does besides resetting its own hover state. *)
Inductive Effect : Type :=
| ConsoleLog (message : string)
| ConsoleError (message : string)
| Toast (title description : string)
| Call (c : StoreCall)
| SetTimeout (c : StoreCall) (ms : Z).

(** How the [try] block ends. *)
Inductive Completion : Type :=
| Returned
| Threw (error : string).

(** Modelled from the spec: the builder context, whose [findElementById(id)]
    the handler calls, is not among the sources. Section 4.1, [find(id)]:
    the depth-first search of [elementUtils] over the tree of the
    context. *)
Definition contextFindElementById (cv : Canvas) (id : string) : option BuilderElement :=
  findElementById (elements cv) id.

(** [findElementIndex(elementId, parentId)]. *)
Definition findElementIndex (cv : Canvas) (elementId : string) (parentId : option string) : Z :=
  match parentId with
  | Some p =>
      if String.eqb p EmptyString then findIndex (sameId elementId) (elements cv)
      else
        match contextFindElementById cv p with
        | Some parent =>
            match el_children parent with
            | Some ch => findIndex (sameId elementId) ch
            | None => -1
            end
        | None => -1
        end
  | None => findIndex (sameId elementId) (elements cv)
  end.

Definition productsListDefaults : Props :=
  [ ("columns", JNum 3); ("productsPerPage", JNum 6);
    ("showPagination", JBool true); ("cardStyle", JStr "default");
    ("sortBy", JStr "created_at"); ("sortOrder", JStr "desc");
    ("categoryFilter", JStr "all") ].

(** [{...sourceElement}]: a new object with the same fields; the
    [children] array is the source's own. *)
Definition shallowCopy (e : BuilderElement) : BuilderElement :=
  mkElement (el_id e) (el_type e) (el_content e) (el_props e) (el_children e).

Definition insertIndexFor (top : bool) (targetIndex : Z) : Z :=
  if top then targetIndex else targetIndex + 1.

Definition addedToast (d : ElementData) : Effect :=
  Toast "Element Added" ("Added new " +:+ ed_type d +:+ " element").

(** The branch for a payload without an id: a new element from the
    palette. [freshId] is what [uuidv4()] returns. *)
Definition dropNew (cv : Canvas) (freshId : string) (d : ElementData) : list Effect :=
  let props0 := default [] (ed_props d) in
  let newElement :=
    mkElement freshId (ed_type d) (Some (default EmptyString (ed_content d)))
      (if String.eqb (ed_type d) "productsList"
       then spread productsListDefaults props0 else props0)
      None in
  let positioned :=
    if truthy (dt_element (dropTarget cv)) && truthy (containerId cv) then
      let targetIndex :=
        findElementIndex cv (default EmptyString (dt_element (dropTarget cv))) (containerId cv) in
      if negb (targetIndex =? -1)%Z then
        let insertIndex := insertIndexFor (dt_top (dropTarget cv)) targetIndex in
        Some [ ConsoleLog ("Adding new element to container "
                             +:+ default EmptyString (containerId cv)
                             +:+ " at position " +:+ pretty insertIndex);
               Call (addElement newElement (AtIndex insertIndex) (ofOption (containerId cv)));
               addedToast d ]
      else None
    else None in
  match positioned with
  | Some effects => effects
  | None =>
      (if truthy (containerId cv) then
         match contextFindElementById cv (default EmptyString (containerId cv)) with
         | Some container =>
             [ ConsoleLog ("Adding new element to container "
                             +:+ default EmptyString (containerId cv) +:+ " at end position ("
                             +:+ pretty (Z.of_nat (length (default [] (el_children container))))
                             +:+ ")");
               Call (addElement newElement (AtId (ofOption (containerId cv))) JUndefined) ]
         | None => [ ConsoleLog "Container not found:" ]
         end
       else
         [ ConsoleLog "Adding new element to root";
           Call (addElement newElement (AtId JNullId) JUndefined) ])
      ++ [ addedToast d ]
  end.

(** The branch for a payload with an id: an element of the tree is being
    moved. *)
Definition dropExisting (cv : Canvas) (id : string) (d : ElementData) : list Effect :=
  match contextFindElementById cv id with
  | None => [ ConsoleLog "Source element not found:" ]
  | Some sourceElement =>
      let sourceParentId := ed_parentId d in
      let sourceIndex := default (-1)%Z (ed_sourceIndex d) in
      let target := dt_element (dropTarget cv) in
      let sameContainer :=
        if strictEq sourceParentId (containerId cv) then
          let positioned :=
            if truthy target && strictNeq target (Some id) then
              let targetIndex := findElementIndex cv (default EmptyString target) (containerId cv) in
              if negb (targetIndex =? -1)%Z then
                let adjustedTargetIndex := insertIndexFor (dt_top (dropTarget cv)) targetIndex in
                let destinationIndex :=
                  if negb (sourceIndex =? -1)%Z && (sourceIndex <? targetIndex)%Z
                  then (adjustedTargetIndex - 1)%Z else adjustedTargetIndex in
                Some [ ConsoleLog ("Moving element from " +:+ pretty sourceIndex +:+ " to "
                                     +:+ pretty destinationIndex +:+ " in same container");
                       Call (moveElement sourceIndex destinationIndex sourceParentId) ]
              else None
            else None in
          match positioned with
          | Some effects => Some effects
          | None =>
              if negb (truthy (containerId cv)) && negb (sourceIndex =? -1)%Z then
                let dropIndex := (Z.of_nat (length (elements cv)) - 1)%Z in
                Some [ Call (moveElement sourceIndex dropIndex JUndefined);
                       ConsoleLog ("Moving element from " +:+ pretty sourceIndex +:+ " to "
                                     +:+ pretty dropIndex +:+ " at root level") ]
              else None
          end
        else None in
      match sameContainer with
      | Some effects => effects
      | None =>
          let elementCopy := shallowCopy sourceElement in
          (if truthy target then
             let targetIndex := findElementIndex cv (default EmptyString target) (containerId cv) in
             if negb (targetIndex =? -1)%Z then
               let insertIndex := insertIndexFor (dt_top (dropTarget cv)) targetIndex in
               [ Call (addElement elementCopy (AtIndex insertIndex) (ofOption (containerId cv)));
                 ConsoleLog ("Added element to new container at position " +:+ pretty insertIndex) ]
             else
               [ Call (addElement elementCopy (AtId (ofOption (containerId cv))) JUndefined);
                 ConsoleLog "Added element to new container at the end" ]
           else
             [ Call (addElement elementCopy
                       (AtId (if truthy (containerId cv) then ofOption (containerId cv) else JNullId))
                       JUndefined);
               ConsoleLog "Added element to new container at the end" ])
          ++ (if negb (sourceIndex =? -1)%Z then [ SetTimeout (removeElement id) 50 ] else [])
      end
  end.

(** The body of the [try] block. *)
Definition dropTry (cv : Canvas) (freshId : string) (data : DropData) : list Effect * Completion :=
  match data with
  | NoData => ([ ConsoleLog "No data in drop event" ], Returned)
  | Unparseable => ([], Threw "SyntaxError")
  | ParsedNull => ([ ConsoleLog "Dropped element data:" ], Threw "TypeError")
  | Parsed d =>
      (ConsoleLog "Dropped element data:"
         :: (if truthy (ed_id d) then dropExisting cv (default EmptyString (ed_id d)) d
             else dropNew cv freshId d),
       Returned)
  end.

(** [handleDrop]: nothing in preview mode; otherwise the [try] block, and
    the [catch] block after it when the body threw. *)
Definition handleDrop (cv : Canvas) (freshId : string) (data : DropData) : list Effect :=
  if isPreviewMode cv then []
  else
    match dropTry cv freshId data with
    | (effects, Returned) => effects
    | (effects, Threw _) =>
        effects ++ [ ConsoleError "Error handling drop:";
                     Toast "Error" "Error adding element. Please try again." ]
    end.

Definition storeCalls (effects : list Effect) : list StoreCall :=
  omap (fun e => match e with Call c => Some c | _ => None end) effects.

Definition deferredCalls (effects : list Effect) : list StoreCall :=
  omap (fun e => match e with SetTimeout c _ => Some c | _ => None end) effects.

Definition notifications (effects : list Effect) : list Effect :=
  List.filter (fun e => match e with Toast _ _ => true | _ => false end) effects.

(** ** The element tree store (builder context) *)

Module Store.

(** Modelled from the spec: the builder context (BuilderProvider), whose
    [addElement], [moveElement] and [removeElement] the handler calls, is
    not among the sources. Section 4.1: an index is clamped into
    [0, length]; without an index the element is appended. *)
Definition insertAt {A : Type} (index : option Z) (x : A) (l : list A) : list A :=
  match index with
  | None => l ++ [x]
  | Some i =>
      let k := Z.to_nat (Z.max 0 (Z.min i (Z.of_nat (length l)))) in
      take k l ++ x :: drop k l
  end.

(** Modelled from the spec: the builder context is not among the sources.
    A node with its children replaced, every other field kept. *)
Definition withChildren (e : BuilderElement) (ch : list BuilderElement) : BuilderElement :=
  mkElement (el_id e) (el_type e) (el_content e) (el_props e) (Some ch).

(** Modelled from the spec: the builder context is not among the sources.
    Section 4.1, insert with a container id: the children of the node
    matching the id, the first one in the order [find] searches; [None]
    when no node matches. *)
Fixpoint updateInElement (cid : string)
    (f : list BuilderElement -> list BuilderElement) (e : BuilderElement)
    : option BuilderElement :=
  if String.eqb (el_id e) cid then Some (withChildren e (f (default [] (el_children e))))
  else
    match el_children e with
    | Some children =>
        withChildren e <$>
        (fix loop (l : list BuilderElement) : option (list BuilderElement) :=
           match l with
           | [] => None
           | c :: cs =>
               match updateInElement cid f c with
               | Some c' => Some (c' :: cs)
               | None => cons c <$> loop cs
               end
           end) children
    | None => None
    end.

(** Modelled from the spec: the builder context is not among the sources.
    The same search along a sequence of siblings. *)
Fixpoint updateChildren (cid : string)
    (f : list BuilderElement -> list BuilderElement) (l : list BuilderElement)
    : option (list BuilderElement) :=
  match l with
  | [] => None
  | c :: cs =>
      match updateInElement cid f c with
      | Some c' => Some (c' :: cs)
      | None => cons c <$> updateChildren cid f cs
      end
  end.

(** Modelled from the spec: the builder context is not among the sources.
    Section 4.1, [insert(newElement, index?, containerId?)]: the root
    sequence without a container id, a no-op when the container does not
    exist. *)
Definition insert (newElement : BuilderElement) (index : option Z)
    (container : option string) (tree : list BuilderElement) : list BuilderElement :=
  match container with
  | None => insertAt index newElement tree
  | Some cid => default tree (updateChildren cid (insertAt index newElement) tree)
  end.

(** Modelled from the spec: the builder context is not among the sources.
    Section 4.1, [move(sourceIndex, destinationIndex, containerId?)]: the
    element at [sourceIndex] is taken out and put back at
    [destinationIndex] of the sequence it was taken from; nothing happens
    when there is no element at [sourceIndex]. *)
Definition moveIn {A : Type} (sourceIndex destinationIndex : Z) (l : list A) : list A :=
  if (0 <=? sourceIndex)%Z then
    match l !! Z.to_nat sourceIndex with
    | Some x => insertAt (Some destinationIndex) x (delete (Z.to_nat sourceIndex) l)
    | None => l
    end
  else l.

(** Modelled from the spec: the builder context is not among the sources.
    Section 4.1, [move] on the root sequence without a container id, on
    the children of the container otherwise. *)
Definition move (sourceIndex destinationIndex : Z) (container : option string)
    (tree : list BuilderElement) : list BuilderElement :=
  match container with
  | None => moveIn sourceIndex destinationIndex tree
  | Some cid => default tree (updateChildren cid (moveIn sourceIndex destinationIndex) tree)
  end.

(** Modelled from the spec: the builder context is not among the sources.
    Section 4.1, [remove(id)]: the node with this id is deleted wherever
    it occurs, in the root sequence and in all nested children. *)
Fixpoint removeInElement (id : string) (e : BuilderElement) : BuilderElement :=
  mkElement (el_id e) (el_type e) (el_content e) (el_props e)
    (match el_children e with
     | Some ch =>
         Some (List.filter (fun c => negb (sameId id c)) (List.map (removeInElement id) ch))
     | None => None
     end).

(** Modelled from the spec: the builder context is not among the sources.
    Section 4.1, [remove(id)] from the root sequence down. *)
Definition remove (id : string) (tree : list BuilderElement) : list BuilderElement :=
  List.filter (fun c => negb (sameId id c)) (List.map (removeInElement id) tree).

(** Modelled from the spec: the builder context is not among the sources.
    Section 4.1: an absent container id means the root sequence. *)
Definition containerOf (j : JsId) : option string :=
  match j with
  | JString s => if String.eqb s EmptyString then None else Some s
  | _ => None
  end.

(** Modelled from the spec: the builder context is not among the sources.
    A call with a number in second place is [insert] at that index of the
    container in third place; a call with a container id, [null] or
    nothing in second place is the append to that container, or to the
    root, of section 4.2. *)
Definition apply (c : StoreCall) (tree : list BuilderElement) : list BuilderElement :=
  match c with
  | addElement el (AtIndex i) third => insert el (Some i) (containerOf third) tree
  | addElement el (AtId target) _ => insert el None (containerOf target) tree
  | moveElement s d third => move s d (containerOf third) tree
  | removeElement id => remove id tree
  end.

(** Modelled from the spec: the builder context is not among the sources.
    Section 5: the calls are applied in the order they are made. *)
Definition run (calls : list StoreCall) (tree : list BuilderElement) : list BuilderElement :=
  foldl (fun t c => apply c t) tree calls.

End Store.

(** The tree once the handler has returned, and the tree once its timers
    have fired as well. *)
Definition treeAfterDrop (cv : Canvas) (freshId : string) (data : DropData) : list BuilderElement :=
  Store.run (storeCalls (handleDrop cv freshId data)) (elements cv).

Definition treeAfterTimers (cv : Canvas) (freshId : string) (data : DropData) : list BuilderElement :=
  Store.run (deferredCalls (handleDrop cv freshId data)) (treeAfterDrop cv freshId data).



(** ** pages/Builder.tsx: the page and document model *)

Record Page : Type := mkPage {
  page_id : string;
  page_title : string;
  page_slug : string;
  page_isHomePage : bool
}.

Record PageSettings : Type := mkPageSettings {
  ps_title : string;
  ps_meta : Props
}.

(** [website.settings]; every key is optional, so the same record is the
    settings object handed to [saveWebsite]. *)
Record WebsiteSettings : Type := mkSettings {
  pages : option (list Page);
  pagesContent : option (gmap string (list BuilderElement));
  pagesSettings : option (gmap string PageSettings);
  theme : option JValue;
  logoUrl : option string
}.

Record Website : Type := mkWebsite {
  content : list BuilderElement;
  pageSettings : PageSettings;
  settings : WebsiteSettings
}.

(** The arguments of one [saveWebsite] call. *)
Record SaveRequest : Type := mkSaveRequest {
  sr_content : list BuilderElement;
  sr_pageSettings : PageSettings;
  sr_settings : WebsiteSettings
}.

(** Modelled from the spec: the persistence hook (useWebsite) with its
    [saveWebsite] is not among the sources. Section 6,
    [saveDocument(websiteId, content, pageSettings, settingsPatch)]: the
    document takes the content and page settings saved, and each settings
    key the patch carries. *)
Definition saveDocument (website : Website) (r : SaveRequest) : Website :=
  let old := settings website in
  let new := sr_settings r in
  mkWebsite (sr_content r) (sr_pageSettings r)
    (mkSettings
       (match pages new with Some p => Some p | None => pages old end)
       (match pagesContent new with Some m => Some m | None => pagesContent old end)
       (match pagesSettings new with Some m => Some m | None => pagesSettings old end)
       (match theme new with Some t => Some t | None => theme old end)
       (match logoUrl new with Some u => Some u | None => logoUrl old end)).

Definition titleIs (name : string) (p : Page) : bool :=
  String.eqb (toLowerCase (page_title p)) name.

(** What one run of [ensureRequiredPages] leaves behind. *)
Record EnsureOutcome : Type := mkEnsureOutcome {
  updatedPages : list Page;
  hasChanged : bool;
  saved : option SaveRequest
}.

Section RequiredPages.

(** [uuidv4 n] is the id the generator returns at its [n]-th call. *)
Variable uuidv4 : nat -> string.

(** [ensureRequiredPages], threading the number of ids generated so far;
    [None] is the early return when the website has no [pages] key. *)
Definition ensureRequiredPages (website : Website) (n : nat) : option EnsureOutcome * nat :=
  match pages (settings website) with
  | None => (None, n)
  | Some pages0 =>
      let '(pages1, changed1, n1) :=
        match List.find (fun page => page_isHomePage page || titleIs "home" page) pages0 with
        | None => (pages0 ++ [mkPage (uuidv4 n) "Home" "/" true], true, S n)
        | Some homePage =>
            if negb (page_isHomePage homePage) then
              (List.map (fun p =>
                   if String.eqb (page_id p) (page_id homePage)
                   then mkPage (page_id p) (page_title p) (page_slug p) true else p)
                 pages0,
               true, n)
            else (pages0, false, n)
        end in
      let '(pages2, changed2, n2) :=
        match List.find (titleIs "shop") pages1 with
        | None => (pages1 ++ [mkPage (uuidv4 n1) "Shop" "/shop" false], true, S n1)
        | Some _ => (pages1, changed1, n1)
        end in
      let '(pages3, changed3, n3) :=
        match List.find (titleIs "about") pages2 with
        | None => (pages2 ++ [mkPage (uuidv4 n2) "About" "/about" false], true, S n2)
        | Some _ => (pages2, changed2, n2)
        end in
      let s := settings website in
      (Some (mkEnsureOutcome pages3 changed3
               (if changed3 then
                  Some (mkSaveRequest (content website) (pageSettings website)
                          (mkSettings (Some pages3) (pagesContent s) (pagesSettings s)
                             (theme s) (logoUrl s)))
                else None)),
       n3)
  end.

(** The document after a run: the saved one when the run saved. *)
Definition afterEnsure (website : Website) (n : nat) : Website :=
  match fst (ensureRequiredPages website n) with
  | Some (mkEnsureOutcome _ _ (Some r)) => saveDocument website r
  | _ => website
  end.

End RequiredPages.

(** [JSON.parse(JSON.stringify(x))] on the element tree: every node is
    built anew; property values are JSON data already. *)
Fixpoint cloneElement (e : BuilderElement) : BuilderElement :=
  mkElement (el_id e) (el_type e) (el_content e) (el_props e)
    (match el_children e with
     | Some ch => Some (List.map cloneElement ch)
     | None => None
     end).

Definition clonePageSettings (s : PageSettings) : PageSettings :=
  mkPageSettings (ps_title s) (ps_meta s).

(** The effect that loads the page content when [currentPageId] changes:
    the values it hands to [setCurrentPageElements] and
    [setCurrentPageSettings], [None] when it returns early. [elements] and
    [websiteName] are the hook's values of those names. *)
Definition loadPageContent (website : Website) (elements : option (list BuilderElement))
    (websiteName : string) (currentPageId : option string)
    : option (list BuilderElement * PageSettings) :=
  if negb (truthy currentPageId) then None
  else
    let pid := default EmptyString currentPageId in
    let pagesContent0 := default ∅ (pagesContent (settings website)) in
    let pageContent := default [] (pagesContent0 !! pid) in
    let pageSettings0 :=
      default (mkPageSettings websiteName [])
        (pagesSettings (settings website) ≫= fun m => m !! pid) in
    Some (if (length pageContent =? 0)%nat then default [] elements else pageContent,
          pageSettings0).

(** [handleSaveComplete]: the [saveWebsite] call it makes, [None] when it
    gives up for want of a page id. *)
Definition handleSaveComplete (website : Website) (currentPageId : option string)
    (updatedElements : list BuilderElement) (updatedPageSettings : PageSettings)
    : option SaveRequest :=
  if negb (truthy currentPageId) then None
  else
    let pid := default EmptyString currentPageId in
    let pagesContent0 :=
      match pagesContent (settings website) with
      | Some m => (List.map cloneElement) <$> m
      | None => ∅
      end in
    let pagesSettings0 :=
      match pagesSettings (settings website) with
      | Some m => clonePageSettings <$> m
      | None => ∅
      end in
    let pagesContent1 := <[pid := updatedElements]> pagesContent0 in
    let pagesSettings1 := <[pid := updatedPageSettings]> pagesSettings0 in
    let isHomePage :=
      match pages (settings website) ≫= List.find page_isHomePage with
      | Some home => String.eqb (page_id home) pid
      | None => false
      end in
    Some (mkSaveRequest
            (if isHomePage then updatedElements else content website)
            updatedPageSettings
            (mkSettings None (Some pagesContent1) (Some pagesSettings1) None None)).

(** [commitPageContent]: the document once the save of
    [handleSaveComplete] has gone through. *)
Definition commitPageContent (website : Website) (currentPageId : option string)
    (updatedElements : list BuilderElement) (updatedPageSettings : PageSettings)
    : option Website :=
  saveDocument website <$>
    handleSaveComplete website currentPageId updatedElements updatedPageSettings.

(** ** The save-status text (pages/Builder.tsx, pages/builder/Shop.tsx) *)

Section SaveStatus.

(** [lastSaved.toLocaleTimeString([], {hour: '2-digit', minute:
    '2-digit'})], of a time in milliseconds. *)
Variable toLocaleTimeString : Z -> string.

(** [updateSaveStatus] at the time [now], both times in milliseconds:
    the string handed to [setSaveStatus]. *)
Definition updateSaveStatus (now lastSaved : Z) : string :=
  let diffInSeconds := ((now - lastSaved) / 1000)%Z in
  if (diffInSeconds <? 60)%Z then
    "Saved " +:+ pretty diffInSeconds +:+ " seconds ago"
  else if (diffInSeconds <? 3600)%Z then
    let minutes := (diffInSeconds / 60)%Z in
    "Saved " +:+ pretty minutes +:+ " minute"
      +:+ (if (1 <? minutes)%Z then "s" else EmptyString) +:+ " ago"
  else "Saved at " +:+ toLocaleTimeString lastSaved.

(** The interval of [setInterval(updateSaveStatus, 60000)]. *)
Definition statusInterval : Z := 60000.

(** The effect on [lastSaved], started at [start]: the time of the call
    that computed the status shown at [t]: the start itself, then one
    call each interval. *)
Definition lastTick (start t : Z) : Z :=
  (start + statusInterval * ((t - start) / statusInterval))%Z.

Definition saveStatusAt (lastSaved : option Z) (start t : Z) : option string :=
  match lastSaved with
  | None => None
  | Some saved => Some (updateSaveStatus (lastTick start t) saved)
  end.

End SaveStatus.


(** ** Predicates on updates of the tree *)

(** What an update leaves at the container: the node [find] returned,
    with [f] applied to its children. *)
Definition updated_by (f : list BuilderElement -> list BuilderElement)
    (b : BuilderElement) : BuilderElement :=
  Store.withChildren b (f (default [] (el_children b))).

(** The update reaches the node [find] reaches, and none when [find]
    reaches none. *)
Definition update_agrees_with_find_in (cid : string)
    (f : list BuilderElement -> list BuilderElement) (e : BuilderElement) : Prop :=
  match findInElement cid e with
  | None => Store.updateInElement cid f e = None
  | Some b =>
      exists e', Store.updateInElement cid f e = Some e'
                 /\ findInElement cid e' = Some (updated_by f b)
  end.

(** The update adds [k] occurrences of [id] below the element. *)
Definition update_adds_by (cid : string)
    (f : list BuilderElement -> list BuilderElement) (id : string) (k : nat)
    (e : BuilderElement) : Prop :=
  forall e', Store.updateInElement cid f e = Some e' ->
             occurrences id [e'] = (occurrences id [e] + k)%nat.

(** ** Sample trees, payloads and documents *)

Module Samples.

Definition leafEl (id : string) : BuilderElement :=
  mkElement id "text" (Some id) [] None.

Definition box (id : string) (ch : list BuilderElement) : BuilderElement :=
  mkElement id "section" None [] (Some ch).

(** A root sequence of three leaves, dragged within the root. *)
Definition flatRoot : list BuilderElement := [leafEl "a"; leafEl "b"; leafEl "c"].

Definition rootCanvas (top : bool) (target : option string) : Canvas :=
  mkCanvas flatRoot None (mkDropTarget top target) false.

Definition dragFromRoot (id : string) (sourceIndex : Z) : ElementData :=
  mkElementData (Some id) "text" None None JUndefined (Some sourceIndex).

(** Two containers: [e] sits in [A] and is dragged onto [t] in [B]. *)
Definition twoBoxes : list BuilderElement :=
  [box "A" [leafEl "e"]; box "B" [leafEl "t"]].

Definition intoB : Canvas :=
  mkCanvas twoBoxes (Some "B") (mkDropTarget true (Some "t")) false.

Definition dragFromA : ElementData :=
  mkElementData (Some "e") "text" None None (JString "A") (Some 0%Z).

(** A website with a home page and an about page, the legacy content
    holding one heading. *)
Definition heading : BuilderElement :=
  mkElement "h1" "heading" (Some "Hi") [] None.

Definition twoPages : list Page :=
  [mkPage "home" "Home" "/" true; mkPage "about" "About" "/about" false].

Definition site : Website :=
  mkWebsite [heading] (mkPageSettings "My site" [])
    (mkSettings (Some twoPages) None None None None).

Definition emptySite : Website :=
  mkWebsite [] (mkPageSettings "My site" [])
    (mkSettings (Some []) None None None None).

End Samples.

(** ** JavaScript strings *)

Module JsText.

(** [s.startsWith(p)]. *)
Fixpoint startsWith (s p : string) {struct p} : bool :=
  match p with
  | EmptyString => true
  | String c p' =>
      match s with
      | EmptyString => false
      | String a s' => Ascii.eqb a c && startsWith s' p'
      end
  end.

(** [s.includes(sub)]. *)
Fixpoint includesText (s sub : string) : bool :=
  startsWith s sub
  || match s with
     | EmptyString => false
     | String _ rest => includesText rest sub
     end.

(** [s.split(c)] for a separator of one character. *)
Fixpoint split (c : ascii) (s : string) : list string :=
  match s with
  | EmptyString => [EmptyString]
  | String a rest =>
      if Ascii.eqb a c then EmptyString :: split c rest
      else
        match split c rest with
        | piece :: pieces => String a piece :: pieces
        | [] => [String a EmptyString]
        end
  end.

(** [parts.join(sep)]. *)
Fixpoint join (sep : string) (parts : list string) : string :=
  match parts with
  | [] => EmptyString
  | [piece] => piece
  | piece :: rest => piece +:+ sep +:+ join sep rest
  end.

(** Truthiness of a property value. *)
Definition truthyValue (v : JValue) : bool :=
  match v with
  | JNull => false
  | JBool b => b
  | JNum n => negb (n =? 0)%Z
  | JStr s => negb (String.eqb s EmptyString)
  | JArr _ => true
  | JObj _ => true
  end.

End JsText.
Import JsText.

(** ** contexts/builder/elementUtils.ts: animations *)

Inductive AnimationType : Type :=
| BasicAnimation
| PremiumAnimation
| EnterpriseAnimation.

Definition animationTypeName (t : AnimationType) : string :=
  match t with
  | BasicAnimation => "basic"
  | PremiumAnimation => "premium"
  | EnterpriseAnimation => "enterprise"
  end.

(** [element.props?.hasAnimation && element.props?.animationType === name],
    as a boolean. *)
Definition hasAnimationOfType (name : string) (element : BuilderElement) : bool :=
  match propLookup "hasAnimation" (el_props element) with
  | Some flag =>
      truthyValue flag
      && match propLookup "animationType" (el_props element) with
         | Some (JStr t) => String.eqb t name
         | _ => false
         end
  | None => false
  end.

Definition hasPremiumAnimations (element : BuilderElement) : bool :=
  hasAnimationOfType "premium" element.

Definition hasEnterpriseAnimations (element : BuilderElement) : bool :=
  hasAnimationOfType "enterprise" element.

Definition addAnimationToElement (element : BuilderElement)
    (animationType : AnimationType) (animationEffect : string) : BuilderElement :=
  mkElement (el_id element) (el_type element) (el_content element)
    (spread (el_props element)
       [ ("hasAnimation", JBool true);
         ("animationType", JStr (animationTypeName animationType));
         ("animationEffect", JStr animationEffect) ])
    (el_children element).

(** ** components/builder/elements/navigation/NavbarElement.tsx *)

Module NavbarElement.

(** [getSiteCartUrl], of [window.location.pathname]. *)
Definition getSiteCartUrl (currentPath : string) : string :=
  if includesText currentPath "/site/" then
    let baseSitePath := join "/" (take 3 (split "/" currentPath)) in
    baseSitePath +:+ "/cart"
  else "/cart".

Inductive LinkEffect : Type :=
| Navigate (url : string)
| WindowOpen (url target : string)
| SetMobileMenuOpen (open : bool).

(** [handleLinkClick(e, url)], after [e.preventDefault()]. *)
Definition handleLinkClick (isLiveSite : bool) (url : string) : list LinkEffect :=
  if isLiveSite then
    (if startsWith url "/" || String.eqb url "#" then
       [ Navigate (if String.eqb url "#" then "/" else url) ]
     else if startsWith url "http" then [ WindowOpen url "_blank" ]
     else [ Navigate url ])
    ++ [ SetMobileMenuOpen false ]
  else [].

End NavbarElement.

(** ** components/builder/BuilderNavbar.tsx *)

Module BuilderNavbar.

(** [getActiveTabFromRoute], of [location.pathname]. *)
Definition getActiveTabFromRoute (path : string) : string :=
  if includesText path "/products" then "products"
  else if includesText path "/orders" then "orders"
  else if includesText path "/pages" then "pages"
  else if includesText path "/site-settings" then "settings"
  else if includesText path "/payment-settings" then "payment-settings"
  else if includesText path "/shipping-settings" then "shipping-settings"
  else "edit".

Inductive NavbarEffect : Type :=
| SetActiveTab (value : string)
| NavigateTo (url : string)
| OpenInNewTab (url : string).

(** [window.location.pathname.split("/")[2]], when it is truthy. *)
Definition websiteIdOf (pathname : string) : option string :=
  match split "/" pathname !! 2%nat with
  | Some websiteId => if String.eqb websiteId EmptyString then None else Some websiteId
  | None => None
  end.

(** [handleTabChange(value)], of [window.location.pathname]. *)
Definition handleTabChange (pathname value : string) : list NavbarEffect :=
  SetActiveTab value ::
  match websiteIdOf pathname with
  | None => []
  | Some websiteId =>
      let base := "/builder/" +:+ websiteId in
      if String.eqb value "edit" then [ NavigateTo base ]
      else if String.eqb value "products" then [ NavigateTo (base +:+ "/products") ]
      else if String.eqb value "orders" then [ NavigateTo (base +:+ "/orders") ]
      else if String.eqb value "pages" then [ NavigateTo (base +:+ "/pages") ]
      else if String.eqb value "settings" then [ NavigateTo (base +:+ "/site-settings") ]
      else if String.eqb value "payment-settings"
      then [ NavigateTo (base +:+ "/payment-settings") ]
      else if String.eqb value "shipping-settings"
      then [ NavigateTo (base +:+ "/shipping-settings") ]
      else []
  end.

(** [handleOpenFullPreview], of the [viewSiteUrl] prop and
    [window.location.pathname]. *)
Definition handleOpenFullPreview (viewSiteUrl : option string) (pathname : string)
    : list NavbarEffect :=
  if truthy viewSiteUrl then [ OpenInNewTab (default EmptyString viewSiteUrl) ]
  else
    match websiteIdOf pathname with
    | None => []
    | Some websiteId => [ OpenInNewTab ("/view/" +:+ websiteId) ]
    end.

End BuilderNavbar.

(** ** pages/Builder.tsx: choosing the current page *)

Inductive PageEffect : Type :=
| SetCurrentPageId (pageId : string)
| NavigateReplace (url : string)
| RunEnsureRequiredPages.

Definition builderUrl (id pageId : string) : string :=
  "/builder/" +:+ id +:+ "?pageId=" +:+ pageId.

(** The effect that sets the current page from the [pageId] parameter of
    the URL ([None] for no parameter), the home page or the first page;
    [id] is the route parameter. *)
Definition selectCurrentPage (website : Website) (id : string) (pageId : option string)
    : list PageEffect :=
  match pages (settings website) with
  | Some (first :: others) =>
      let pages0 := first :: others in
      let requested :=
        if truthy pageId
        then List.find (fun page => String.eqb (page_id page) (default EmptyString pageId)) pages0
        else None in
      match requested with
      | Some _ => [ SetCurrentPageId (default EmptyString pageId) ]
      | None =>
          (match List.find page_isHomePage pages0 with
           | Some homePage =>
               SetCurrentPageId (page_id homePage)
               :: (if negb (truthy pageId)
                   then [ NavigateReplace (builderUrl id (page_id homePage)) ] else [])
           | None =>
               SetCurrentPageId (page_id first)
               :: (if negb (truthy pageId)
                   then [ NavigateReplace (builderUrl id (page_id first)) ] else [])
           end)
          ++ [ RunEnsureRequiredPages ]
      end
  | _ => []
  end.

(** ** pages/builder/Shop.tsx *)

Module ShopPage.

Definition navLinks : JValue :=
  JArr [ JObj [ ("text", JStr "Home"); ("url", JStr "#") ];
         JObj [ ("text", JStr "About"); ("url", JStr "#") ];
         JObj [ ("text", JStr "Shop"); ("url", JStr "#") ];
         JObj [ ("text", JStr "Contact"); ("url", JStr "#") ] ].

(** The default shop page; [uuidv4 n] is the id the generator returns at
    its [n]-th call, the calls being made in the order of the source
    text. *)
Definition defaultElements (uuidv4 : nat -> string) (websiteName : string) (n : nat)
    : list BuilderElement :=
  [ mkElement (uuidv4 n) "navbar" (Some EmptyString)
      [ ("siteName", JStr websiteName); ("links", navLinks); ("variant", JStr "default") ]
      None;
    mkElement (uuidv4 (n + 1)%nat) "section" (Some EmptyString)
      [ ("padding", JStr "large"); ("backgroundColor", JStr "bg-white");
        ("className", JStr "py-12") ]
      (Some
         [ mkElement (uuidv4 (n + 2)%nat) "heading" (Some "Our Shop")
             [ ("level", JStr "h1");
               ("className", JStr "text-3xl font-bold text-center mb-8") ]
             None;
           mkElement (uuidv4 (n + 3)%nat) "text"
             (Some "Browse our collection of amazing products.")
             [ ("className", JStr "text-center text-gray-600 max-w-2xl mx-auto mb-12") ]
             None ]);
    mkElement (uuidv4 (n + 4)%nat) "section" (Some EmptyString)
      [ ("padding", JStr "large"); ("backgroundColor", JStr "bg-gray-50");
        ("className", JStr "py-12") ]
      (Some
         [ mkElement (uuidv4 (n + 5)%nat) "productsList" (Some EmptyString)
             [ ("columns", JNum 4); ("productsPerPage", JNum 8);
               ("showPagination", JBool true); ("cardStyle", JStr "default") ]
             None ]);
    mkElement (uuidv4 (n + 6)%nat) "footer" (Some EmptyString)
      [ ("siteName", JStr websiteName); ("links", navLinks); ("variant", JStr "dark") ]
      None ].

Definition shopPage (website : Website) : option Page :=
  pages (settings website) ≫= List.find (titleIs "shop").

(** The effect that initialises the shop page: the values it hands to
    [setShopPageElements] and [setShopPageSettings], and the number of ids
    generated. *)
Definition loadShopPage (uuidv4 : nat -> string) (website : Website)
    (websiteName : string) (n : nat) : (list BuilderElement * PageSettings) * nat :=
  let stored :=
    match shopPage website with
    | Some page =>
        if String.eqb (page_id page) EmptyString then None
        else
          match pagesContent (settings website) ≫= (fun m => m !! page_id page) with
          | Some stored0 =>
              Some (stored0,
                    default (mkPageSettings "Shop" [])
                      (pagesSettings (settings website) ≫= fun m => m !! page_id page))
          | None => None
          end
    | None => None
    end in
  match stored with
  | Some loaded => (loaded, n)
  | None => ((defaultElements uuidv4 websiteName n, mkPageSettings "Shop" []), (n + 7)%nat)
  end.

(** [handleSaveComplete] of the shop page: the [saveWebsite] call it
    makes, [None] when it returns before; [id] is the route parameter. *)
Definition handleSaveComplete (id : option string) (website : Website)
    (elements : list BuilderElement) (pageSettings0 : PageSettings) : option SaveRequest :=
  if negb (truthy id) then None
  else
    match shopPage website with
    | Some page =>
        if String.eqb (page_id page) EmptyString then None
        else
          let pagesContent0 :=
            (List.map cloneElement) <$> default ∅ (pagesContent (settings website)) in
          let pagesSettings0 :=
            clonePageSettings <$> default ∅ (pagesSettings (settings website)) in
          Some (mkSaveRequest (content website) pageSettings0
                  (mkSettings None
                     (Some (<[page_id page := elements]> pagesContent0))
                     (Some (<[page_id page := pageSettings0]> pagesSettings0))
                     None None))
    | None => None
    end.

End ShopPage.

(** ** Notions used to state properties of the drop handler *)

(** The sequence [findElementIndex] searches: the root sequence for no
    parent id, the children of the parent otherwise, none when the parent
    is not in the tree or has no children. *)
Definition searchedSequence (cv : Canvas) (parentId : option string) : list BuilderElement :=
  if truthy parentId
  then default [] (contextFindElementById cv (default EmptyString parentId) ≫= el_children)
  else elements cv.

(** The element the handler builds for a payload without an id. *)
Definition paletteElement (fresh : string) (d : ElementData) : BuilderElement :=
  mkElement fresh (ed_type d) (Some (default EmptyString (ed_content d)))
    (if String.eqb (ed_type d) "productsList"
     then spread productsListDefaults (default [] (ed_props d))
     else default [] (ed_props d))
    None.

(** ** Notions used to state properties of routes *)

(** Whether a character occurs in a string. *)
Fixpoint hasChar (c : ascii) (s : string) : bool :=
  match s with
  | EmptyString => false
  | String a rest => Ascii.eqb a c || hasChar c rest
  end.

(** What may follow a path segment: nothing, or a slash and more. *)
Definition segmentEnd (rest : string) : Prop :=
  rest = EmptyString \/ exists more, rest = String "/" more.

(** The tabs of the builder navbar and the route each is shown at. *)
Definition tabRoutes : list (string * string) :=
  [ ("edit", EmptyString); ("products", "/products"); ("orders", "/orders");
    ("pages", "/pages"); ("settings", "/site-settings");
    ("payment-settings", "/payment-settings");
    ("shipping-settings", "/shipping-settings") ].

(** ** Notions used to state properties of the pages *)

(** A page [ensureRequiredPages] takes for the home page. *)
Definition isHomeLike (page : Page) : bool :=
  page_isHomePage page || titleIs "home" page.

(** The ids the selection effect hands to [setCurrentPageId]. *)
Definition selectedIds (effects : list PageEffect) : list string :=
  omap (fun e => match e with SetCurrentPageId p => Some p | _ => None end) effects.

(** A page as it was, but for the home flag. *)
Definition samePageButFlag (before after : Page) : Prop :=
  page_id after = page_id before
  /\ page_title after = page_title before
  /\ page_slug after = page_slug before
  /\ (page_isHomePage before = true -> page_isHomePage after = true).

(** The three steps of [ensureRequiredPages] on the pages, the change flag
    and the number of ids generated: the home page, then a page by
    title. *)
Definition homeStep (uuidv4 : nat -> string) (pages0 : list Page) (n : nat)
    : list Page * bool * nat :=
  match List.find isHomeLike pages0 with
  | None => (pages0 ++ [mkPage (uuidv4 n) "Home" "/" true], true, S n)
  | Some homePage =>
      if negb (page_isHomePage homePage) then
        (List.map (fun p =>
             if String.eqb (page_id p) (page_id homePage)
             then mkPage (page_id p) (page_title p) (page_slug p) true else p)
           pages0,
         true, n)
      else (pages0, false, n)
  end.

Definition titledStep (uuidv4 : nat -> string) (key title slug : string)
    (state : list Page * bool * nat) : list Page * bool * nat :=
  let '(pages1, changed, n) := state in
  match List.find (titleIs key) pages1 with
  | None => (pages1 ++ [mkPage (uuidv4 n) title slug false], true, S n)
  | Some _ => (pages1, changed, n)
  end.

Definition requiredSteps (uuidv4 : nat -> string) (pages0 : list Page) (n : nat)
    : list Page * bool * nat :=
  titledStep uuidv4 "about" "About" "/about"
    (titledStep uuidv4 "shop" "Shop" "/shop" (homeStep uuidv4 pages0 n)).

(** The pages a run of the steps may leave for the pages [ps] and [n] ids
    generated before: the pages kept, in order and changed in the home flag
    at most, then at most [k] pages added under the next ids generated. *)
Definition keepsPages (uuidv4 : nat -> string) (ps : list Page) (n k : nat)
    (state : list Page * bool * nat) : Prop :=
  exists kept added,
    state.1.1 = kept ++ added
    /\ Forall2 samePageButFlag ps kept
    /\ (length added <= k)%nat
    /\ state.2 = (n + length added)%nat
    /\ List.map page_id added = List.map uuidv4 (seq n (length added))
    /\ (state.1.2 = false -> state.1.1 = ps).

(** A website with a shop page, for the properties of the shop editor. *)
Definition shopSite : Website :=
  mkWebsite [Samples.heading] (mkPageSettings "My site" [])
    (mkSettings
       (Some [ mkPage "home" "Home" "/" true; mkPage "shop" "Shop" "/shop" false ])
       (Some {[ "home" := [Samples.heading] ]}) None None None).
(** * Properties *)

(** ** elementUtils.ts *)

Lemma find_concat_cons {A : Type} (p : A -> bool) (l1 l2 : list A) :
  List.find p (l1 ++ l2)
  = match List.find p l1 with Some x => Some x | None => List.find p l2 end.
Proof.
  induction l1 as [|x xs IH]; simpl; [reflexivity|].
  destruct (p x); [reflexivity | exact IH].
Qed.

(** The inner loop of [findInElement] is [findElementById] on the
    children. *)
Lemma findInElement_unfold id e :
  findInElement id e
  = if String.eqb (el_id e) id then Some e
    else match el_children e with
         | Some children => findElementById children id
         | None => None
         end.
Proof.
  destruct e as [i t c p [ch|]]; simpl; [|reflexivity].
  destruct (String.eqb i id); [reflexivity|].
  induction ch as [|x xs IH]; simpl; [reflexivity|].
  destruct (findInElement id x); [reflexivity | exact IH].
Qed.

(** The model has the shape of the source loop: the element itself, then
    its children when it has any, then the rest of the sequence. *)
Lemma findElementById_loop id element rest :
  findElementById (element :: rest) id
  = if String.eqb (el_id element) id then Some element
    else match el_children element with
         | Some (c :: cs) =>
             match findElementById (c :: cs) id with
             | Some found => Some found
             | None => findElementById rest id
             end
         | _ => findElementById rest id
         end.
Proof.
  cbn [findElementById]. rewrite findInElement_unfold.
  destruct (String.eqb (el_id element) id); [reflexivity|].
  destruct (el_children element) as [[|c cs]|]; reflexivity.
Qed.

Lemma findInElement_preorderOf id e :
  findInElement id e = List.find (sameId id) (preorderOf e).
Proof.
  induction e as [i t c p | i t c p ch IH] using element_ind_nested;
    rewrite findInElement_unfold; cbn [preorderOf List.find el_children el_id];
    unfold sameId at 1; cbn [el_id];
    (destruct (String.eqb i id); [reflexivity|]); [reflexivity|].
  induction IH as [|x xs Hx _ IHxs]; [reflexivity|].
  cbn [findElementById List.map concat]. rewrite find_concat_cons, <- Hx.
  destruct (findInElement id x); [reflexivity | exact IHxs].
Qed.

Lemma findElementById_find elements id :
  findElementById elements id = List.find (sameId id) (preorder elements).
Proof.
  unfold preorder. induction elements as [|x xs IH]; [reflexivity|].
  cbn [findElementById List.map concat].
  rewrite find_concat_cons, <- findInElement_preorderOf, IH. reflexivity.
Qed.

Lemma find_none_iff {A : Type} (p : A -> bool) (l : list A) :
  List.find p l = None <-> forall x, In x l -> p x = false.
Proof.
  split.
  - apply find_none.
  - induction l as [|x xs IH]; intros H; [reflexivity|]. simpl.
    rewrite (H x (or_introl eq_refl)). apply IH. intros y Hy. apply H. now right.
Qed.

(** C8: [findElementById] searches the tree depth-first in pre-order and
    returns the first element whose id is the one asked for; it returns
    [null] exactly when no element of the tree has that id. *)
Theorem findElementById_first_preorder (elements : list BuilderElement) (id : string) :
  findElementById elements id = List.find (sameId id) (preorder elements)
  /\ (findElementById elements id = None
      <-> forall e, In e (preorder elements) -> el_id e <> id).
Proof.
  split; [apply findElementById_find|].
  rewrite findElementById_find, find_none_iff.
  split; intros H e He.
  - intros Heq. specialize (H e He). unfold sameId in H.
    apply String.eqb_neq in H. contradiction.
  - unfold sameId. apply String.eqb_neq. exact (H e He).
Qed.

(** C10: no element type is both a premium element and an enterprise-only
    element; the two catalogs share no entry. *)
Theorem premium_enterprise_disjoint (t : string) :
  isPremiumElement t && isEnterpriseElement t = false
  /\ ~ (In t premiumElements /\ In t enterpriseElements).
Proof.
  assert (Hb : isPremiumElement t && isEnterpriseElement t = false).
  { destruct (isPremiumElement t) eqn:H; [|reflexivity].
    unfold isPremiumElement, includes, premiumElements in H. simpl in H.
    repeat (apply orb_true_iff in H as [H|H];
            [apply String.eqb_eq in H; subst t; reflexivity|]).
    discriminate H. }
  split; [exact Hb|].
  intros [Hp He].
  assert (Hin : forall l, In t l -> includes l t = true).
  { intros l Hl. unfold includes. apply existsb_exists. exists t.
    split; [exact Hl | apply String.eqb_refl]. }
  unfold isPremiumElement, isEnterpriseElement in Hb.
  rewrite (Hin _ Hp), (Hin _ He) in Hb. discriminate Hb.
Qed.

(** ** The save-status text *)

(** Settle a comparison of the goal from the linear facts at hand. *)
Ltac ltb_true b :=
  let E := fresh "E" in
  assert (E : b = true) by (apply Z.ltb_lt; lia); rewrite E; clear E.

Ltac ltb_false b :=
  let E := fresh "E" in
  assert (E : b = false) by (apply Z.ltb_ge; lia); rewrite E; clear E.

(** C9: the save-status string is "Saved N seconds ago" for fewer than 60
    whole seconds since the last save, "Saved M minute(s) ago" with
    M = floor(N / 60) and the plural "s" exactly when M > 1 for less than an
    hour, and "Saved at" with the local time of the save otherwise; it is
    recomputed every 60 seconds, whatever the time of the save. *)
Theorem save_status_by_elapsed_time (fmt : Z -> string) (now lastSaved : Z) :
  let N := ((now - lastSaved) / 1000)%Z in
  let M := (N / 60)%Z in
  ((N < 60)%Z ->
     updateSaveStatus fmt now lastSaved = "Saved " +:+ pretty N +:+ " seconds ago")
  /\ ((60 <= N < 3600)%Z -> (1 < M)%Z ->
        updateSaveStatus fmt now lastSaved = "Saved " +:+ pretty M +:+ " minutes ago")
  /\ ((60 <= N < 3600)%Z -> ~ (1 < M)%Z ->
        updateSaveStatus fmt now lastSaved = "Saved " +:+ pretty M +:+ " minute ago")
  /\ ((3600 <= N)%Z ->
        updateSaveStatus fmt now lastSaved = "Saved at " +:+ fmt lastSaved)
  /\ (forall start t : Z, (start <= t)%Z ->
        exists k : Z,
          (0 <= k)%Z
          /\ (start + k * 60000 <= t < start + (k + 1) * 60000)%Z
          /\ saveStatusAt fmt (Some lastSaved) start t
             = Some (updateSaveStatus fmt (start + k * 60000) lastSaved)).
Proof.
  intros N M. unfold updateSaveStatus. fold N. fold M.
  repeat split.
  - intros H. ltb_true (N <? 60)%Z. reflexivity.
  - intros [H1 H2] HM.
    ltb_false (N <? 60)%Z. ltb_true (N <? 3600)%Z. ltb_true (1 <? M)%Z. reflexivity.
  - intros [H1 H2] HM.
    ltb_false (N <? 60)%Z. ltb_true (N <? 3600)%Z. ltb_false (1 <? M)%Z. reflexivity.
  - intros H. ltb_false (N <? 60)%Z. ltb_false (N <? 3600)%Z. reflexivity.
  - intros start t Hle. exists ((t - start) / 60000)%Z.
    pose proof (Z.div_mod (t - start) 60000 ltac:(lia)) as Hdm.
    pose proof (Z.mod_pos_bound (t - start) 60000 ltac:(lia)) as Hb.
    pose proof (Z.div_pos (t - start) 60000 ltac:(lia) ltac:(lia)) as Hk.
    repeat split; try lia.
    unfold saveStatusAt, lastTick, statusInterval.
    replace (start + 60000 * ((t - start) / 60000))%Z
      with (start + (t - start) / 60000 * 60000)%Z by lia.
    reflexivity.
Qed.

Lemma save_status_by_elapsed_time_witness :
  updateSaveStatus (fun _ => "10:30") 125000 0 = "Saved 2 minutes ago".
Proof.
  apply (save_status_by_elapsed_time (fun _ => "10:30") 125000 0);
    vm_compute; intuition discriminate.
Defined.

(** ** The drop handler *)

Lemma shallowCopy_eq (e : BuilderElement) : shallowCopy e = e.
Proof. destruct e; reflexivity. Qed.

Lemma truthy_some (s : string) : s <> EmptyString -> truthy (Some s) = true.
Proof. intros H. cbn. apply negb_true_iff, String.eqb_neq, H. Qed.

Lemma strictNeq_some (a b : string) : a <> b -> strictNeq (Some a) (Some b) = true.
Proof. intros H. cbn. apply negb_true_iff, String.eqb_neq, H. Qed.

(** A payload with an id takes the branch for existing elements. *)
Lemma handleDrop_existing cv fresh d id :
  isPreviewMode cv = false -> ed_id d = Some id -> id <> EmptyString ->
  handleDrop cv fresh (Parsed d)
  = ConsoleLog "Dropped element data:" :: dropExisting cv id d.
Proof.
  intros Hp Hid Hne. unfold handleDrop, dropTry.
  rewrite Hp, Hid, (truthy_some _ Hne). reflexivity.
Qed.

(** C6: dragging an existing element with source index [s] onto another
    element at index [t] of the same container hands [move] the index [t]
    for the top half and [t + 1] for the bottom half, less one exactly when
    [s < t]. *)
Theorem same_container_destination_index
    (cv : Canvas) (fresh : string) (d : ElementData)
    (eid tid : string) (E : BuilderElement) (s t : Z) :
  isPreviewMode cv = false ->
  ed_id d = Some eid -> eid <> EmptyString ->
  findElementById (elements cv) eid = Some E ->
  strictEq (ed_parentId d) (containerId cv) = true ->
  ed_sourceIndex d = Some s -> (0 <= s)%Z ->
  dt_element (dropTarget cv) = Some tid -> tid <> EmptyString -> tid <> eid ->
  findElementIndex cv tid (containerId cv) = t -> t <> (-1)%Z ->
  storeCalls (handleDrop cv fresh (Parsed d))
  = [ moveElement s
        ((if dt_top (dropTarget cv) then t else t + 1) - (if (s <? t)%Z then 1 else 0))%Z
        (ed_parentId d) ]
  /\ deferredCalls (handleDrop cv fresh (Parsed d)) = [].
Proof.
  intros Hp Hid Hne Hfind Hsame Hs Hs0 Htid Htne Hdiff Ht Htm.
  rewrite (handleDrop_existing cv fresh d eid Hp Hid Hne).
  unfold dropExisting, contextFindElementById. rewrite Hfind, Hsame, Hs, Htid.
  rewrite (truthy_some _ Htne), (strictNeq_some _ _ Hdiff).
  cbn [andb default from_option id]. rewrite Ht.
  assert (E1 : (t =? -1)%Z = false) by (apply Z.eqb_neq; exact Htm).
  assert (E2 : (s =? -1)%Z = false) by (apply Z.eqb_neq; lia).
  rewrite E1, E2. cbn [negb andb]. unfold insertIndexFor.
  destruct (s <? t)%Z, (dt_top (dropTarget cv)); cbn;
    split; try reflexivity; do 2 f_equal; lia.
Qed.

Lemma same_container_destination_index_witness :
  storeCalls
    (handleDrop (Samples.rootCanvas false (Some "c")) "u"
       (Parsed (Samples.dragFromRoot "a" 0)))
  = [ moveElement 0 2 JUndefined ].
Proof.
  apply (same_container_destination_index
           (Samples.rootCanvas false (Some "c")) "u" (Samples.dragFromRoot "a" 0)
           "a" "c" (Samples.leafEl "a") 0 2);
    try reflexivity; try discriminate; lia.
Defined.

(** C7, as the handler has it: a payload that is missing or does not parse
    makes no call into the store, so the tree stays as it was; the handler
    always returns, its [catch] block taking the exception of the parser;
    the user is notified, by one toast, only of the payload that does not
    parse and only outside preview mode: a missing payload is logged to the
    console and nothing else. *)
Theorem malformed_or_missing_payload
    (cv : Canvas) (fresh : string) (data : DropData) :
  data = NoData \/ data = Unparseable ->
  storeCalls (handleDrop cv fresh data) = []
  /\ deferredCalls (handleDrop cv fresh data) = []
  /\ treeAfterTimers cv fresh data = elements cv
  /\ notifications (handleDrop cv fresh data)
     = (if isPreviewMode cv then []
        else match data with
             | Unparseable => [ Toast "Error" "Error adding element. Please try again." ]
             | _ => []
             end).
Proof.
  intros [-> | ->]; unfold treeAfterTimers, treeAfterDrop, handleDrop;
    destruct (isPreviewMode cv); cbn; repeat split; reflexivity.
Qed.

Lemma malformed_or_missing_payload_witness :
  storeCalls (handleDrop Samples.intoB "u" Unparseable) = []
  /\ notifications (handleDrop Samples.intoB "u" Unparseable)
     = [ Toast "Error" "Error adding element. Please try again." ].
Proof.
  destruct (malformed_or_missing_payload Samples.intoB "u" Unparseable
              (or_intror eq_refl)) as (Hcalls & _ & _ & Hnote).
  split; [exact Hcalls | exact Hnote].
Defined.

(** C7 as stated fails for the missing payload: the tree is unchanged, but
    no notification is shown. *)
Lemma missing_payload_shows_no_notification :
  ~ (treeAfterTimers Samples.intoB "u" NoData = elements Samples.intoB
     /\ notifications (handleDrop Samples.intoB "u" NoData) <> []).
Proof. intros [_ H]. apply H. reflexivity. Qed.

(** Dropping a root element onto itself: the guard on the id skips the
    positioned move, and the handler goes on to the move to the end of the
    root sequence. *)
Lemma self_drop_at_root_falls_through
    (cv : Canvas) (fresh : string) (d : ElementData)
    (eid : string) (E : BuilderElement) (s : Z) :
  isPreviewMode cv = false ->
  ed_id d = Some eid -> eid <> EmptyString ->
  findElementById (elements cv) eid = Some E ->
  ed_parentId d = JUndefined -> containerId cv = None ->
  ed_sourceIndex d = Some s -> s <> (-1)%Z ->
  dt_element (dropTarget cv) = Some eid ->
  storeCalls (handleDrop cv fresh (Parsed d))
  = [ moveElement s (Z.of_nat (length (elements cv)) - 1) JUndefined ].
Proof.
  intros Hp Hid Hne Hfind Hpar Hc Hs Hs1 Htid.
  rewrite (handleDrop_existing cv fresh d eid Hp Hid Hne).
  unfold dropExisting, contextFindElementById. rewrite Hfind, Hpar, Hc, Hs, Htid.
  assert (E1 : strictNeq (Some eid) (Some eid) = false)
    by (cbn; rewrite String.eqb_refl; reflexivity).
  assert (E2 : (s =? -1)%Z = false) by (apply Z.eqb_neq; exact Hs1).
  rewrite E1, (truthy_some _ Hne). cbn [strictEq andb default from_option id truthy negb].
  rewrite E2. reflexivity.
Qed.

(** C2 at the root sequence [a; b; c]: dropping [a] onto itself calls
    [moveElement(0, 2)], and the tree becomes [b; c; a]. *)
Theorem self_drop_at_root_moves_to_end :
  storeCalls
    (handleDrop (Samples.rootCanvas true (Some "a")) "u"
       (Parsed (Samples.dragFromRoot "a" 0)))
  = [ moveElement 0 2 JUndefined ]
  /\ treeAfterDrop (Samples.rootCanvas true (Some "a")) "u"
       (Parsed (Samples.dragFromRoot "a" 0))
     = [ Samples.leafEl "b"; Samples.leafEl "c"; Samples.leafEl "a" ]
  /\ treeAfterDrop (Samples.rootCanvas true (Some "a")) "u"
       (Parsed (Samples.dragFromRoot "a" 0))
     <> elements (Samples.rootCanvas true (Some "a")).
Proof. repeat split. discriminate. Qed.

(** Dropping [t] onto itself inside the container [B]: the handler goes on
    to the branch for another container, inserts a copy next to the
    original and schedules the removal by id. *)
Example self_drop_in_container_duplicates :
  let cv := Samples.intoB in
  let d := mkElementData (Some "t") "text" None None (JString "B") (Some 0%Z) in
  storeCalls (handleDrop cv "u" (Parsed d))
  = [ addElement (Samples.leafEl "t") (AtIndex 0) (JString "B") ]
  /\ deferredCalls (handleDrop cv "u" (Parsed d)) = [ removeElement "t" ]
  /\ occurrences "t" (treeAfterDrop cv "u" (Parsed d)) = 2%nat
  /\ occurrences "t" (treeAfterTimers cv "u" (Parsed d)) = 0%nat.
Proof. repeat split. Qed.

(** ** Page content: loading and committing *)

(** C3, as the effect has it: for a page id that is not empty, the elements
    loaded are [pagesContent[pageId]] when that entry is present and not
    empty, and the elements of the website hook otherwise (none of them
    when the hook has none); the settings loaded are [pagesSettings[pageId]]
    when present and [{title: websiteName}] otherwise. For a page id that is
    empty or absent nothing is loaded. *)
Theorem loadPageContent_by_entries
    (website : Website) (hookElements : option (list BuilderElement))
    (websiteName pid : string) :
  (forall currentPageId : option string,
      truthy currentPageId = false ->
      loadPageContent website hookElements websiteName currentPageId = None)
  /\ loadPageContent website hookElements websiteName (Some EmptyString) = None
  /\ loadPageContent website hookElements websiteName None = None
  /\ (pid <> EmptyString ->
      exists loaded conf,
        loadPageContent website hookElements websiteName (Some pid) = Some (loaded, conf)
        /\ (forall c, (pagesContent (settings website) ≫= fun m => m !! pid) = Some c ->
              c <> [] -> loaded = c)
        /\ ((pagesContent (settings website) ≫= fun m => m !! pid) = None
            \/ (pagesContent (settings website) ≫= fun m => m !! pid) = Some [] ->
            loaded = default [] hookElements)
        /\ (forall s, (pagesSettings (settings website) ≫= fun m => m !! pid) = Some s ->
              conf = s)
        /\ ((pagesSettings (settings website) ≫= fun m => m !! pid) = None ->
            conf = mkPageSettings websiteName [])).
Proof.
  split; [|split; [|split]].
  - intros currentPageId Hfalsy. unfold loadPageContent. rewrite Hfalsy. reflexivity.
  - reflexivity.
  - reflexivity.
  - intros Hne. unfold loadPageContent. rewrite (truthy_some _ Hne).
    cbn [negb default from_option id]. eexists _, _. split; [reflexivity|].
    assert (Hcontent :
      default [] (default ∅ (pagesContent (settings website)) !! pid)
      = default [] (pagesContent (settings website) ≫= fun m => m !! pid)).
    { destruct (pagesContent (settings website)); cbn; [reflexivity|].
      rewrite lookup_empty. reflexivity. }
    rewrite Hcontent. repeat split.
    + intros c -> Hc. destruct c; [contradiction | reflexivity].
    + intros [-> | ->]; reflexivity.
    + intros s ->. reflexivity.
    + intros ->. reflexivity.
Qed.

Lemma loadPageContent_by_entries_witness :
  loadPageContent Samples.site (Some [Samples.heading]) "My site" (Some EmptyString) = None
  /\ exists loaded conf,
       loadPageContent Samples.site (Some [Samples.heading]) "My site" (Some "about")
       = Some (loaded, conf)
       /\ loaded = [Samples.heading] /\ conf = mkPageSettings "My site" [].
Proof.
  destruct (loadPageContent_by_entries Samples.site (Some [Samples.heading])
              "My site" "about")
    as (Hfalsy & _ & _ & Hloaded).
  split; [exact (Hfalsy (Some EmptyString) eq_refl)|].
  destruct (Hloaded ltac:(discriminate))
    as (loaded & conf & Hload & _ & Hnone & _ & Hconf).
  exists loaded, conf. split; [exact Hload|]. split.
  - apply Hnone. left. reflexivity.
  - apply Hconf. reflexivity.
Defined.

(** C3 as stated fails where the page has no entry and the hook has
    elements of its own: those are loaded, not the empty sequence. *)
Lemma page_without_entry_loads_hook_elements :
  (pagesContent (settings Samples.site) ≫= fun m => m !! "about") = None
  /\ ~ (loadPageContent Samples.site (Some [Samples.heading]) "My site" (Some "about")
        = Some ([], mkPageSettings "My site" [])).
Proof. split; [reflexivity|]. cbn. intros H. discriminate H. Qed.

(** C4, as the code has it: for a page id that is not empty, committing
    and then loading returns the settings committed, whatever the elements
    are, and the elements committed when they are not empty or the hook
    has no elements of its own. *)
Theorem commit_then_load_round_trip
    (website : Website) (hookElements : option (list BuilderElement))
    (websiteName pid : string)
    (updatedElements : list BuilderElement) (updatedPageSettings : PageSettings) :
  pid <> EmptyString ->
  exists website' loaded,
    commitPageContent website (Some pid) updatedElements updatedPageSettings = Some website'
    /\ loadPageContent website' hookElements websiteName (Some pid)
       = Some (loaded, updatedPageSettings)
    /\ (updatedElements <> [] \/ default [] hookElements = [] ->
        loaded = updatedElements).
Proof.
  intros Hne. unfold commitPageContent, handleSaveComplete.
  rewrite (truthy_some _ Hne). cbn [negb default from_option id fmap option_fmap option_map].
  eexists _, _. split; [reflexivity|].
  unfold loadPageContent. rewrite (truthy_some _ Hne).
  cbn [negb default from_option id saveDocument settings sr_settings pagesContent
       pagesSettings mbind option_bind].
  rewrite !lookup_insert_eq. cbn [default from_option id].
  split; [reflexivity|].
  destruct updatedElements as [|x xs]; cbn [length Nat.eqb].
  - intros [H | H]; [contradiction | exact H].
  - intros _. reflexivity.
Qed.

Lemma commit_then_load_round_trip_witness :
  (exists website' loaded,
      commitPageContent Samples.site (Some "about") [Samples.leafEl "x"]
        (mkPageSettings "About us" []) = Some website'
      /\ loadPageContent website' (Some [Samples.heading]) "My site" (Some "about")
         = Some (loaded, mkPageSettings "About us" [])
      /\ loaded = [Samples.leafEl "x"])
  /\ (exists website' loaded,
        commitPageContent Samples.site (Some "about") [] (mkPageSettings "About us" [])
        = Some website'
        /\ loadPageContent website' (Some (content website')) "My site" (Some "about")
           = Some (loaded, mkPageSettings "About us" [])).
Proof.
  split.
  - destruct (commit_then_load_round_trip Samples.site (Some [Samples.heading])
                "My site" "about" [Samples.leafEl "x"] (mkPageSettings "About us" [])
                ltac:(discriminate))
      as (website' & loaded & Hcommit & Hload & Hels).
    exists website', loaded. split; [exact Hcommit|]. split; [exact Hload|].
    apply Hels. left. discriminate.
  - destruct (commit_then_load_round_trip Samples.site (Some [Samples.heading])
                "My site" "about" [] (mkPageSettings "About us" [])
                ltac:(discriminate))
      as (website' & loaded & Hcommit & Hload & _).
    exists website', loaded. split; [exact Hcommit|].
    assert (Hw : website'
                 = saveDocument Samples.site
                     (mkSaveRequest (content Samples.site) (mkPageSettings "About us" [])
                        (mkSettings None
                           (Some (<["about" := []]> ∅))
                           (Some (<["about" := mkPageSettings "About us" []]> ∅))
                           None None)))
      by (injection Hcommit as <-; reflexivity).
    rewrite Hw in Hload |- *. exact Hload.
Defined.

(** C4 as stated fails for an empty page: committing no elements for the
    about page and loading it again, the hook holding the content of the
    document, returns the content of the document. *)
Lemma empty_page_does_not_round_trip :
  ~ (forall website',
       commitPageContent Samples.site (Some "about") [] (mkPageSettings "About us" [])
       = Some website' ->
       loadPageContent website' (Some (content website')) "My site" (Some "about")
       = Some ([], mkPageSettings "About us" [])).
Proof.
  intros H. specialize (H _ eq_refl). vm_compute in H. discriminate H.
Qed.

(** ** Required pages *)

(** C5: on a website with no pages, [ensureRequiredPages] saves the pages
    Home (the home page, at [/]), Shop (at [/shop]) and About (at
    [/about]), each under the id the generator returned for it, and these
    ids differ when the generator does not repeat itself; run again on the
    saved document it finds all three, reports no change, saves nothing and
    leaves the document as it is. *)
Theorem ensureRequiredPages_on_no_pages
    (uuidv4 : nat -> string) (website : Website) (n : nat) :
  (forall i j : nat, uuidv4 i = uuidv4 j -> i = j) ->
  pages (settings website) = Some [] ->
  let created :=
    [ mkPage (uuidv4 n) "Home" "/" true;
      mkPage (uuidv4 (S n)) "Shop" "/shop" false;
      mkPage (uuidv4 (S (S n))) "About" "/about" false ] in
  let website' := afterEnsure uuidv4 website n in
  let n' := snd (ensureRequiredPages uuidv4 website n) in
  (exists r,
      fst (ensureRequiredPages uuidv4 website n)
      = Some (mkEnsureOutcome created true (Some r))
      /\ pages (sr_settings r) = Some created)
  /\ pages (settings website') = Some created
  /\ NoDup (page_id <$> created)
  /\ ensureRequiredPages uuidv4 website' n'
     = (Some (mkEnsureOutcome created false None), n')
  /\ afterEnsure uuidv4 website' n' = website'.
Proof.
  intros Hinj Hpages created website' n'.
  assert (Hfirst :
    ensureRequiredPages uuidv4 website n
    = (Some (mkEnsureOutcome created true
               (Some (mkSaveRequest (content website) (pageSettings website)
                        (mkSettings (Some created) (pagesContent (settings website))
                           (pagesSettings (settings website)) (theme (settings website))
                           (logoUrl (settings website)))))),
       S (S (S n)))).
  { unfold ensureRequiredPages. rewrite Hpages. reflexivity. }
  assert (Hw : pages (settings website') = Some created).
  { unfold website', afterEnsure. rewrite Hfirst. reflexivity. }
  assert (Hsecond :
    ensureRequiredPages uuidv4 website' n' = (Some (mkEnsureOutcome created false None), n')).
  { unfold ensureRequiredPages. rewrite Hw. reflexivity. }
  split; [|split; [|split; [|split]]].
  - eexists. rewrite Hfirst. split; reflexivity.
  - exact Hw.
  - cbn. repeat constructor.
    + intros Hin. apply list_elem_of_In in Hin. cbn in Hin.
      destruct Hin as [Heq | [Heq | []]]; apply Hinj in Heq; lia.
    + intros Hin. apply list_elem_of_In in Hin. cbn in Hin.
      destruct Hin as [Heq | []]. apply Hinj in Heq; lia.
    + intros Hin. apply list_elem_of_In in Hin. destruct Hin.
  - exact Hsecond.
  - unfold afterEnsure. rewrite Hsecond. reflexivity.
Qed.

Lemma ensureRequiredPages_on_no_pages_witness :
  pages (settings (afterEnsure pretty Samples.emptySite 0))
  = Some [ mkPage "0" "Home" "/" true;
           mkPage "1" "Shop" "/shop" false;
           mkPage "2" "About" "/about" false ].
Proof.
  destruct (ensureRequiredPages_on_no_pages pretty Samples.emptySite 0
              (fun i j Hij => pretty_nat_inj i j Hij) eq_refl)
    as (_ & Hpages & _).
  exact Hpages.
Defined.

(** ** The element tree store *)

Lemma occurrences_app id (l1 l2 : list BuilderElement) :
  occurrences id (l1 ++ l2) = (occurrences id l1 + occurrences id l2)%nat.
Proof.
  unfold occurrences, preorder.
  rewrite List.map_app, List.concat_app, List.filter_app, List.length_app. reflexivity.
Qed.

Lemma occurrences_cons id (x : BuilderElement) (l : list BuilderElement) :
  occurrences id (x :: l) = (occurrences id [x] + occurrences id l)%nat.
Proof. exact (occurrences_app id [x] l). Qed.

Lemma occurrences_node id (e : BuilderElement) :
  occurrences id [e]
  = ((if sameId id e then 1 else 0) + occurrences id (default [] (el_children e)))%nat.
Proof.
  unfold occurrences, preorder. cbn [List.map concat]. rewrite List.app_nil_r.
  destruct e as [i t c p [ch|]]; cbn [preorderOf el_children List.filter default from_option Datatypes.id];
    destruct (sameId id _); reflexivity.
Qed.



Section UpdateFacts.

Variable cid : string.
Variable f : list BuilderElement -> list BuilderElement.

#[local] Abbreviation updated := (updated_by f).
#[local] Abbreviation update_agrees_with_find := (update_agrees_with_find_in cid f).




(** Occurrences of an id under an update that adds [k] of them to the
    children it rewrites. *)
Variable id : string.
Variable k : nat.
Hypothesis f_adds : forall l, occurrences id (f l) = (occurrences id l + k)%nat.

#[local] Abbreviation update_adds := (update_adds_by cid f id k).




End UpdateFacts.

(** The scenarios the specification gives for the store. *)
Example move_first_to_end :
  Store.move 0 2 None Samples.flatRoot
  = [ Samples.leafEl "b"; Samples.leafEl "c"; Samples.leafEl "a" ].
Proof. reflexivity. Qed.

Example insert_into_empty_root :
  Store.insert Samples.heading (Some 0%Z) None [] = [ Samples.heading ].
Proof. reflexivity. Qed.

Example remove_nested_two_levels :
  Store.remove "b"
    [ Samples.box "a" [ Samples.box "m" [ Samples.leafEl "b"; Samples.leafEl "x" ];
                        Samples.leafEl "y" ] ]
  = [ Samples.box "a" [ Samples.box "m" [ Samples.leafEl "x" ]; Samples.leafEl "y" ] ].
Proof. reflexivity. Qed.




(** [remove] leaves no node with the id anywhere in the tree. *)
Lemma remove_clears_element id (e : BuilderElement) :
  sameId id e = false -> occurrences id [Store.removeInElement id e] = 0%nat.
Proof.
  induction e as [i t c p | i t c p ch IH] using element_ind_nested;
    intros He; rewrite occurrences_node;
    unfold sameId in *; cbn [Store.removeInElement el_id el_children] in *;
    rewrite He; cbn [default from_option Datatypes.id Nat.add]; [reflexivity|].
  induction IH as [|x xs Hx _ IHxs]; [reflexivity|].
  cbn [List.map List.filter].
  destruct (sameId id (Store.removeInElement id x)) eqn:Hs; cbn [negb]; [exact IHxs|].
  rewrite occurrences_cons, IHxs. rewrite Hx; [reflexivity|].
  destruct x; exact Hs.
Qed.

Lemma remove_clears id (tree : list BuilderElement) :
  occurrences id (Store.remove id tree) = 0%nat.
Proof.
  unfold Store.remove. induction tree as [|x xs IH]; [reflexivity|].
  cbn [List.map List.filter].
  destruct (sameId id (Store.removeInElement id x)) eqn:Hs; cbn [negb]; [exact IH|].
  rewrite occurrences_cons, IH, remove_clears_element; [reflexivity|].
  destruct x; exact Hs.
Qed.

Lemma findElementById_sameId tree id e :
  findElementById tree id = Some e -> el_id e = id /\ (1 <= occurrences id tree)%nat.
Proof.
  rewrite findElementById_find. intros H.
  pose proof (find_some _ _ H) as [Hin Hid].
  split; [apply String.eqb_eq; exact Hid|].
  unfold occurrences.
  assert (Hm : In e (List.filter (sameId id) (preorder tree)))
    by (apply List.filter_In; split; assumption).
  destruct (List.filter (sameId id) (preorder tree)); [destruct Hm | cbn; lia].
Qed.



(** Once the timer of a drop onto another container has fired, the id
    dragged occurs nowhere in the tree: [remove] takes the original and the
    copy alike. *)
Lemma cross_container_drop_timer_clears
    (cv : Canvas) (fresh : string) (d : ElementData)
    (eid tid : string) (E : BuilderElement) (s t : Z) :
  isPreviewMode cv = false ->
  ed_id d = Some eid -> eid <> EmptyString ->
  findElementById (elements cv) eid = Some E ->
  strictEq (ed_parentId d) (containerId cv) = false ->
  ed_sourceIndex d = Some s -> s <> (-1)%Z ->
  dt_element (dropTarget cv) = Some tid -> tid <> EmptyString ->
  findElementIndex cv tid (containerId cv) = t -> t <> (-1)%Z ->
  occurrences eid (treeAfterTimers cv fresh (Parsed d)) = 0%nat.
Proof.
  intros Hp Hid Hne Hfind Hdiff Hs Hs1 Htid Htne Ht Htm.
  assert (E1 : (t =? -1)%Z = false) by (apply Z.eqb_neq; exact Htm).
  assert (E2 : (s =? -1)%Z = false) by (apply Z.eqb_neq; exact Hs1).
  unfold treeAfterTimers.
  assert (Hdef : deferredCalls (handleDrop cv fresh (Parsed d)) = [ removeElement eid ]).
  { rewrite (handleDrop_existing cv fresh d eid Hp Hid Hne).
    unfold dropExisting, contextFindElementById.
    rewrite Hfind, Hdiff, Hs, Htid, (truthy_some _ Htne).
    cbn [default from_option id]. rewrite Ht, E1, E2. reflexivity. }
  rewrite Hdef. cbn [Store.run foldl Store.apply]. apply remove_clears.
Qed.


Example cross_container_drop_counts :
  occurrences "e" (elements Samples.intoB) = 1%nat
  /\ occurrences "e" (treeAfterDrop Samples.intoB "u" (Parsed Samples.dragFromA)) = 2%nat
  /\ occurrences "e" (treeAfterTimers Samples.intoB "u" (Parsed Samples.dragFromA)) = 0%nat.
Proof. repeat split. Qed.

(** * Further properties of the code *)

(** ** elementUtils.ts: animations *)

Lemma find_key_map (k : string) (g : string * JValue -> JValue) (a : Props) :
  List.find (fun kv => String.eqb (fst kv) k) (List.map (fun kv => (fst kv, g kv)) a)
  = (fun kv => (fst kv, g kv)) <$> List.find (fun kv => String.eqb (fst kv) k) a.
Proof.
  induction a as [|[k0 v0] a IH]; [reflexivity|].
  cbn [List.map List.find fst]. destruct (String.eqb k0 k); [reflexivity | exact IH].
Qed.

Lemma find_key_none_existsb (k : string) (a : Props) :
  List.find (fun kv => String.eqb (fst kv) k) a = None ->
  existsb (fun ka => String.eqb (fst ka) k) a = false.
Proof.
  induction a as [|[k0 v0] a IH]; [reflexivity|].
  cbn [List.find existsb fst]. destruct (String.eqb k0 k); [discriminate | exact IH].
Qed.

Lemma find_key_some_existsb (k : string) (a : Props) (kv : string * JValue) :
  List.find (fun kv => String.eqb (fst kv) k) a = Some kv ->
  existsb (fun ka => String.eqb (fst ka) k) a = true /\ fst kv = k.
Proof.
  induction a as [|[k0 v0] a IH]; [discriminate|].
  cbn [List.find existsb fst]. destruct (String.eqb k0 k) eqn:Hk.
  - intros [= <-]. split; [reflexivity | apply String.eqb_eq; exact Hk].
  - intros H. destruct (IH H) as [-> ->]. split; reflexivity.
Qed.

Lemma find_key_filter (k : string) (keep : string -> bool) (b : Props) :
  List.find (fun kv => String.eqb (fst kv) k) (List.filter (fun kv => keep (fst kv)) b)
  = if keep k then List.find (fun kv => String.eqb (fst kv) k) b else None.
Proof.
  induction b as [|[k0 v0] b IH]; [destruct (keep k); reflexivity|].
  cbn [List.filter List.find fst].
  destruct (String.eqb k0 k) eqn:Hk.
  - apply String.eqb_eq in Hk. subst k0.
    destruct (keep k); [cbn [List.find fst]; rewrite String.eqb_refl; reflexivity | exact IH].
  - destruct (keep k0); [cbn [List.find fst]; rewrite Hk|]; exact IH.
Qed.

(** A key of [{...a, ...b}] has the value [b] gives it, and the value [a]
    gives it when [b] has none. *)
Lemma propLookup_spread (k : string) (a b : Props) :
  propLookup k (spread a b)
  = match propLookup k b with
    | Some v => Some v
    | None => propLookup k a
    end.
Proof.
  unfold propLookup, spread. rewrite find_concat_cons.
  rewrite (find_key_map k (fun kv => default (snd kv) (propLookup (fst kv) b)) a).
  destruct (List.find (fun kv => String.eqb (fst kv) k) a) as [kv|] eqn:Ha.
  - destruct (find_key_some_existsb k a kv Ha) as [_ Hkv].
    cbn [fmap option_fmap option_map snd]. rewrite Hkv. unfold propLookup.
    destruct (List.find (fun kv0 => String.eqb (fst kv0) k) b); reflexivity.
  - cbn [fmap option_fmap option_map].
    rewrite (find_key_filter k
               (fun key => negb (existsb (fun ka => String.eqb (fst ka) key) a)) b).
    rewrite (find_key_none_existsb k a Ha). cbn [negb].
    destruct (List.find (fun kv0 => String.eqb (fst kv0) k) b); reflexivity.
Qed.

(** X1: an element given an animation of some type reads back as having a
    premium animation exactly for the premium type and an enterprise
    animation exactly for the enterprise type, whatever its properties
    were. *)
Theorem added_animation_reads_back
    (element : BuilderElement) (t : AnimationType) (effect : string) :
  hasPremiumAnimations (addAnimationToElement element t effect)
  = match t with PremiumAnimation => true | _ => false end
  /\ hasEnterpriseAnimations (addAnimationToElement element t effect)
     = match t with EnterpriseAnimation => true | _ => false end.
Proof.
  unfold hasPremiumAnimations, hasEnterpriseAnimations, hasAnimationOfType,
    addAnimationToElement.
  cbn [el_props]. rewrite !propLookup_spread. destruct t; split; reflexivity.
Qed.

(** X2: no element has a premium animation and an enterprise animation at
    once. *)
Theorem animation_tiers_exclusive (element : BuilderElement) :
  hasPremiumAnimations element && hasEnterpriseAnimations element = false.
Proof.
  unfold hasPremiumAnimations, hasEnterpriseAnimations, hasAnimationOfType.
  destruct (propLookup "hasAnimation" (el_props element)) as [flag|]; [|reflexivity].
  destruct (truthyValue flag); [|reflexivity]. cbn [andb].
  destruct (propLookup "animationType" (el_props element)) as [[| | |s| |]|];
    try reflexivity.
  destruct (String.eqb s "premium") eqn:Hs; [|reflexivity].
  apply String.eqb_eq in Hs. subst s. reflexivity.
Qed.

(** X3: giving an element an animation changes nothing but the three
    animation properties: id, type, content and children stay, and so does
    every other property. *)
Theorem added_animation_keeps_the_rest
    (element : BuilderElement) (t : AnimationType) (effect : string) (k : string) :
  k <> "hasAnimation" -> k <> "animationType" -> k <> "animationEffect" ->
  let animated := addAnimationToElement element t effect in
  el_id animated = el_id element
  /\ el_type animated = el_type element
  /\ el_content animated = el_content element
  /\ el_children animated = el_children element
  /\ propLookup k (el_props animated) = propLookup k (el_props element).
Proof.
  intros H1 H2 H3 animated. repeat split.
  unfold animated, addAnimationToElement. cbn [el_props].
  rewrite propLookup_spread. unfold propLookup at 1. cbn [List.find fst].
  apply not_eq_sym, String.eqb_neq in H1, H2, H3. rewrite H1, H2, H3. reflexivity.
Qed.

Lemma added_animation_keeps_the_rest_witness :
  propLookup "width"
    (el_props (addAnimationToElement
                 (mkElement "e" "text" None [("width", JNum 200)] None)
                 PremiumAnimation "fadeIn"))
  = Some (JNum 200).
Proof.
  apply (added_animation_keeps_the_rest
           (mkElement "e" "text" None [("width", JNum 200)] None)
           PremiumAnimation "fadeIn" "width"); discriminate.
Defined.

(** ** elementUtils.ts: lookup in a tree of unique ids *)

Lemma find_unique {A : Type} (key : A -> string) (l : list A) (x : A) :
  NoDup (List.map key l) -> In x l ->
  List.find (fun y => String.eqb (key y) (key x)) l = Some x.
Proof.
  induction l as [|y ys IH]; intros Hnd Hin; [destruct Hin|].
  cbn [List.map] in Hnd. apply NoDup_cons in Hnd as [Hy Hnd].
  cbn [List.find]. destruct Hin as [-> | Hin].
  - rewrite String.eqb_refl. reflexivity.
  - destruct (String.eqb (key y) (key x)) eqn:Hk; [|exact (IH Hnd Hin)].
    apply String.eqb_eq in Hk. exfalso. apply Hy. rewrite Hk.
    apply list_elem_of_In, in_map, Hin.
Qed.

(** X4: in a tree whose ids are all different, [findElementById] returns
    every node of the tree when asked for its id, at whatever depth. *)
Theorem findElementById_finds_every_node
    (elements : list BuilderElement) (e : BuilderElement) :
  NoDup (List.map el_id (preorder elements)) ->
  In e (preorder elements) ->
  findElementById elements (el_id e) = Some e.
Proof.
  intros Hnd Hin. rewrite findElementById_find.
  exact (find_unique el_id (preorder elements) e Hnd Hin).
Qed.

Lemma findElementById_finds_every_node_witness :
  findElementById Samples.twoBoxes "t" = Some (Samples.leafEl "t").
Proof.
  apply (findElementById_finds_every_node Samples.twoBoxes (Samples.leafEl "t")).
  - cbn. repeat (constructor; [rewrite !list_elem_of_In; cbn; intuition discriminate|]).
    constructor.
  - cbn. intuition.
Defined.

(** ** The drop handler: positions and calls *)

Lemma findIndexFrom_first {A : Type} (p : A -> bool) (l : list A) (i : Z) :
  (findIndexFrom p i l = (-1)%Z /\ forall x, In x l -> p x = false)
  \/ (exists (n : nat) (x : A),
        findIndexFrom p i l = (i + Z.of_nat n)%Z
        /\ l !! n = Some x /\ p x = true
        /\ forall (j : nat) (y : A), (j < n)%nat -> l !! j = Some y -> p y = false).
Proof.
  revert i. induction l as [|a l IH]; intros i.
  - left. split; [reflexivity | intros x []].
  - cbn [findIndexFrom]. destruct (p a) eqn:Ha.
    + right. exists 0%nat, a.
      split; [lia|]. split; [reflexivity|]. split; [exact Ha|]. intros j y Hj; lia.
    + destruct (IH (i + 1)%Z) as [[Hnone Hall] | (n & x & Hn & Hx & Hpx & Hbefore)].
      * left. split; [exact Hnone|]. intros x [<- | Hx]; [exact Ha | exact (Hall x Hx)].
      * right. exists (S n), x.
        split; [lia|]. split; [exact Hx|]. split; [exact Hpx|].
        intros [|j] y Hj Hy; [cbn in Hy; congruence|].
        apply (Hbefore j y); [lia | exact Hy].
Qed.

(** X5: [findElementIndex] returns [-1] exactly when no element of the
    sequence it searches has the id, in particular when the parent is not
    in the tree; otherwise it returns the position of the first element of
    that sequence with the id. *)
Theorem findElementIndex_first_position
    (cv : Canvas) (elementId : string) (parentId : option string) :
  let ch := searchedSequence cv parentId in
  (findElementIndex cv elementId parentId = (-1)%Z
   /\ forall el, In el ch -> el_id el <> elementId)
  \/ (exists (n : nat) (el : BuilderElement),
        findElementIndex cv elementId parentId = Z.of_nat n
        /\ ch !! n = Some el /\ el_id el = elementId
        /\ forall (j : nat) (other : BuilderElement),
             (j < n)%nat -> ch !! j = Some other -> el_id other <> elementId).
Proof.
  intros ch.
  assert (Hidx : findElementIndex cv elementId parentId = findIndex (sameId elementId) ch).
  { unfold ch, searchedSequence, findElementIndex, truthy.
    destruct parentId as [p|]; [|reflexivity]. cbn [default from_option id].
    destruct (String.eqb p EmptyString); cbn [negb]; [reflexivity|].
    destruct (contextFindElementById cv p) as [parent|]; [|reflexivity].
    cbn [mbind option_bind]. destruct (el_children parent); reflexivity. }
  rewrite Hidx. unfold findIndex.
  destruct (findIndexFrom_first (sameId elementId) ch 0)
    as [[Hnone Hall] | (n & x & Hn & Hx & Hpx & Hbefore)].
  - left. split; [exact Hnone|]. intros el Hel. apply String.eqb_neq. exact (Hall el Hel).
  - right. exists n, x. rewrite Hn.
    split; [lia|]. split; [exact Hx|]. split.
    + apply String.eqb_eq. exact Hpx.
    + intros j other Hj Hother. apply String.eqb_neq. exact (Hbefore j other Hj Hother).
Qed.

(** What a drop of an existing element calls: nothing, one move, or one
    insertion of the element found, with or without the removal by id on
    a timer. *)
Lemma dropExisting_calls (cv : Canvas) (id : string) (d : ElementData) :
  let effects := dropExisting cv id d in
  (storeCalls effects = [] /\ deferredCalls effects = []
   /\ contextFindElementById cv id = None)
  \/ (exists s t third,
        storeCalls effects = [ moveElement s t third ] /\ deferredCalls effects = [])
  \/ (exists E position third,
        contextFindElementById cv id = Some E
        /\ storeCalls effects = [ addElement E position third ]
        /\ (deferredCalls effects = []
            \/ deferredCalls effects = [ removeElement id ])).
Proof.
  intros effects. unfold effects, dropExisting.
  destruct (contextFindElementById cv id) as [E|] eqn:Hfind;
    [|left; repeat split; reflexivity].
  right. rewrite shallowCopy_eq.
  repeat match goal with
         | |- context [if ?b then _ else _] => destruct b
         end;
    cbn;
    first [ left; do 3 eexists; split; reflexivity
          | right; do 3 eexists; split; [reflexivity|]; split; [reflexivity|];
            first [ left; reflexivity | right; reflexivity ] ].
Qed.

Lemma dropNew_calls (cv : Canvas) (fresh : string) (d : ElementData) :
  let effects := dropNew cv fresh d in
  deferredCalls effects = []
  /\ (storeCalls effects = []
      \/ exists el position third,
           storeCalls effects = [ addElement el position third ] /\ el_id el = fresh).
Proof.
  intros effects. unfold effects, dropNew.
  repeat match goal with
         | |- context [if ?b then _ else _] => destruct b
         | |- context [match contextFindElementById ?c ?i with _ => _ end] =>
             destruct (contextFindElementById c i)
         end;
    cbn; (split; [reflexivity|]);
    first [ left; reflexivity | right; do 3 eexists; split; reflexivity ].
Qed.

(** Close a goal on the calls of a list of effects that is known. *)
Ltac few_calls :=
  solve [ cbn; repeat split; try lia;
          let H := fresh in intros ? H; cbn in H; intuition discriminate ].

(** X6: whatever is dropped, the handler makes at most one call into the
    tree at once and leaves at most one to a timer; it never removes an
    element at once, and what it leaves to a timer is the removal of the
    id of the payload, after the insertion of an element of that id. *)
Theorem handleDrop_calls_bounded (cv : Canvas) (fresh : string) (data : DropData) :
  let effects := handleDrop cv fresh data in
  (length (storeCalls effects) <= 1)%nat
  /\ (length (deferredCalls effects) <= 1)%nat
  /\ (forall id, ~ In (removeElement id) (storeCalls effects))
  /\ (forall c, In c (deferredCalls effects) ->
        exists d id E position third,
          data = Parsed d /\ ed_id d = Some id /\ c = removeElement id
          /\ storeCalls effects = [ addElement E position third ] /\ el_id E = id).
Proof.
  intros effects.
  assert (Hlog : forall l, storeCalls (ConsoleLog "Dropped element data:" :: l) = storeCalls l
                           /\ deferredCalls (ConsoleLog "Dropped element data:" :: l)
                              = deferredCalls l) by (intros l; split; reflexivity).
  unfold effects, handleDrop, dropTry.
  destruct (isPreviewMode cv); [few_calls|].
  destruct data as [| | |d]; try few_calls.
  cbv beta iota. fold (storeCalls) (deferredCalls).
  destruct (Hlog (if truthy (ed_id d)
                  then dropExisting cv (default EmptyString (ed_id d)) d
                  else dropNew cv fresh d)) as [-> ->].
  destruct (truthy (ed_id d)) eqn:Hid.
  - destruct (ed_id d) as [id|] eqn:Hd; [|discriminate Hid].
    cbn [default from_option Datatypes.id].
    pose proof (dropExisting_calls cv id d) as Hcalls. cbv zeta in Hcalls.
    destruct Hcalls
      as [(-> & -> & _) | [(s & t & third & -> & ->) | (E & pos & third & HE & -> & Hdef)]];
      try few_calls.
    assert (Hsame : el_id E = id)
      by (apply (findElementById_sameId (elements cv)); exact HE).
    destruct Hdef as [-> | ->]; [few_calls|].
    split; [cbn; lia|]. split; [cbn; lia|]. split.
    + intros i [H|[]]. discriminate H.
    + intros c [<-|[]]. exists d, id, E, pos, third. repeat split; assumption.
  - pose proof (dropNew_calls cv fresh d) as Hcalls. cbv zeta in Hcalls.
    destruct Hcalls as [-> [-> | (el & pos & third & -> & _)]]; few_calls.
Qed.

Lemma dropNew_shape (cv : Canvas) (fresh : string) (d : ElementData) :
  let effects := dropNew cv fresh d in
  notifications effects = [ addedToast d ]
  /\ ((storeCalls effects = []
       /\ truthy (containerId cv) = true
       /\ contextFindElementById cv (default EmptyString (containerId cv)) = None)
      \/ (exists position third,
            storeCalls effects = [ addElement (paletteElement fresh d) position third ]
            /\ (truthy (containerId cv) = true ->
                contextFindElementById cv (default EmptyString (containerId cv)) <> None))).
Proof.
  intros effects. unfold effects, dropNew, paletteElement.
  destruct (truthy (containerId cv)) eqn:Hc.
  - destruct (containerId cv) as [c|] eqn:Hcid; [|discriminate Hc].
    cbn [default from_option id andb]. unfold findElementIndex.
    assert (Hne : String.eqb c EmptyString = false)
      by (cbn in Hc; apply negb_true_iff in Hc; exact Hc).
    rewrite Hne.
    destruct (contextFindElementById cv c) as [parent|] eqn:Hparent.
    + destruct (truthy (dt_element (dropTarget cv))); cbn [andb];
        repeat match goal with
               | |- context [if ?b then _ else _] => destruct b
               | |- context [match el_children ?p with _ => _ end] =>
                   destruct (el_children p)
               end;
        (split; [reflexivity|]); right; do 2 eexists;
        (split; [reflexivity | intros _; discriminate]).
    + rewrite andb_comm. cbn.
      destruct (truthy (dt_element (dropTarget cv))); cbn; split; try reflexivity;
        left; repeat split; reflexivity.
  - rewrite andb_false_r. cbn. split; [reflexivity|].
    right. do 2 eexists. split; [reflexivity | intros H; discriminate H].
Qed.

(** X7: a payload without an id always shows the toast "Element Added",
    schedules nothing, and adds at most one element, the one built from the
    payload under the id just generated; it adds none exactly when the
    canvas has a container id that no element of the tree has, and still
    shows the toast then. *)
Theorem new_element_drop (cv : Canvas) (fresh : string) (d : ElementData) :
  isPreviewMode cv = false ->
  truthy (ed_id d) = false ->
  let effects := handleDrop cv fresh (Parsed d) in
  notifications effects
  = [ Toast "Element Added" ("Added new " +:+ ed_type d +:+ " element") ]
  /\ deferredCalls effects = []
  /\ (storeCalls effects = []
      <-> truthy (containerId cv) = true
          /\ contextFindElementById cv (default EmptyString (containerId cv)) = None)
  /\ (storeCalls effects = []
      \/ exists position third,
           storeCalls effects = [ addElement (paletteElement fresh d) position third ]).
Proof.
  intros Hp Hid effects.
  assert (Heff : effects = ConsoleLog "Dropped element data:" :: dropNew cv fresh d).
  { unfold effects, handleDrop, dropTry. rewrite Hp, Hid. reflexivity. }
  rewrite Heff.
  change (notifications (ConsoleLog "Dropped element data:" :: dropNew cv fresh d))
    with (notifications (dropNew cv fresh d)).
  change (storeCalls (ConsoleLog "Dropped element data:" :: dropNew cv fresh d))
    with (storeCalls (dropNew cv fresh d)).
  change (deferredCalls (ConsoleLog "Dropped element data:" :: dropNew cv fresh d))
    with (deferredCalls (dropNew cv fresh d)).
  pose proof (dropNew_shape cv fresh d) as Hshape. cbv zeta in Hshape.
  pose proof (dropNew_calls cv fresh d) as Hcalls. cbv zeta in Hcalls.
  destruct Hshape as [Hnote Hshape]. destruct Hcalls as [Hdef _].
  split; [exact Hnote|]. split; [exact Hdef|].
  destruct Hshape as [(Hnone & Hc & Hfind) | (pos & third & Hadd & Hfound)].
  - split; [|left; exact Hnone]. split; [intros _; split; assumption | intros _; exact Hnone].
  - split; [|right; exists pos, third; exact Hadd].
    rewrite Hadd. split; [discriminate|]. intros [Hc Hfind]. destruct (Hfound Hc Hfind).
Qed.

Lemma new_element_drop_witness :
  storeCalls
    (handleDrop (mkCanvas Samples.flatRoot (Some "nowhere") (mkDropTarget true None) false)
       "u" (Parsed (mkElementData None "heading" None None JUndefined None)))
  = [].
Proof.
  apply (new_element_drop
           (mkCanvas Samples.flatRoot (Some "nowhere") (mkDropTarget true None) false)
           "u" (mkElementData None "heading" None None JUndefined None) eq_refl eq_refl).
  split; reflexivity.
Defined.

(** X8: an element added for a payload without an id has the id just
    generated, the type of the payload, its content or the empty string,
    and no children; its properties are those of the payload, and for a
    products list each default property (columns, products per page, ...)
    as well, unless the payload gives the property itself. *)
Theorem new_element_built_from_payload
    (cv : Canvas) (fresh : string) (d : ElementData)
    (el : BuilderElement) (position : AddPosition) (third : JsId) (k : string) :
  truthy (ed_id d) = false ->
  In (addElement el position third) (storeCalls (handleDrop cv fresh (Parsed d))) ->
  el_id el = fresh
  /\ el_type el = ed_type d
  /\ el_content el = Some (default EmptyString (ed_content d))
  /\ el_children el = None
  /\ propLookup k (el_props el)
     = match propLookup k (default [] (ed_props d)) with
       | Some v => Some v
       | None =>
           if String.eqb (ed_type d) "productsList"
           then propLookup k productsListDefaults else None
       end.
Proof.
  intros Hid Hin.
  assert (Hel : el = paletteElement fresh d).
  { unfold handleDrop, dropTry in Hin. destruct (isPreviewMode cv); [destruct Hin|].
    rewrite Hid in Hin.
    change (storeCalls (ConsoleLog "Dropped element data:" :: dropNew cv fresh d))
      with (storeCalls (dropNew cv fresh d)) in Hin.
    pose proof (dropNew_shape cv fresh d) as Hshape. cbv zeta in Hshape.
    destruct Hshape as [_ [(Hnone & _) | (pos & th & Hadd & _)]].
    - rewrite Hnone in Hin. destruct Hin.
    - rewrite Hadd in Hin. destruct Hin as [H|[]]. congruence. }
  subst el. unfold paletteElement. cbn [el_id el_type el_content el_children el_props].
  repeat split.
  destruct (String.eqb (ed_type d) "productsList").
  - apply propLookup_spread.
  - destruct (propLookup k (default [] (ed_props d))); reflexivity.
Qed.

Lemma new_element_built_from_payload_witness :
  propLookup "columns"
    (el_props (paletteElement "u"
                 (mkElementData None "productsList" None
                    (Some [("columns", JNum 2)]) JUndefined None)))
  = Some (JNum 2).
Proof.
  apply (new_element_built_from_payload (Samples.rootCanvas true None) "u"
           (mkElementData None "productsList" None (Some [("columns", JNum 2)])
              JUndefined None)
           _ (AtId JNullId) JUndefined "columns" eq_refl).
  left. reflexivity.
Defined.

(** X9: a payload with an id that no element of the tree has is dropped
    silently: no call into the tree, nothing on a timer, no toast. *)
Theorem drop_of_unknown_element
    (cv : Canvas) (fresh : string) (d : ElementData) (id : string) :
  ed_id d = Some id -> id <> EmptyString ->
  findElementById (elements cv) id = None ->
  storeCalls (handleDrop cv fresh (Parsed d)) = []
  /\ deferredCalls (handleDrop cv fresh (Parsed d)) = []
  /\ notifications (handleDrop cv fresh (Parsed d)) = [].
Proof.
  intros Hid Hne Hfind. destruct (isPreviewMode cv) eqn:Hp.
  - unfold handleDrop. rewrite Hp. repeat split.
  - rewrite (handleDrop_existing cv fresh d id Hp Hid Hne).
    unfold dropExisting, contextFindElementById. rewrite Hfind. repeat split.
Qed.

Lemma drop_of_unknown_element_witness :
  storeCalls (handleDrop Samples.intoB "u" (Parsed (Samples.dragFromRoot "ghost" 0))) = [].
Proof.
  apply (drop_of_unknown_element Samples.intoB "u" (Samples.dragFromRoot "ghost" 0) "ghost");
    [reflexivity | discriminate | reflexivity].
Defined.

(** X10: an element dragged to another container by a payload without a
    source index is inserted there and never removed from where it was:
    nothing is left to a timer. *)
Theorem drop_without_source_index_keeps_original
    (cv : Canvas) (fresh : string) (d : ElementData) (id : string) (E : BuilderElement) :
  isPreviewMode cv = false ->
  ed_id d = Some id -> id <> EmptyString ->
  findElementById (elements cv) id = Some E ->
  strictEq (ed_parentId d) (containerId cv) = false ->
  ed_sourceIndex d = None ->
  (exists position third,
      storeCalls (handleDrop cv fresh (Parsed d)) = [ addElement E position third ])
  /\ deferredCalls (handleDrop cv fresh (Parsed d)) = [].
Proof.
  intros Hp Hid Hne Hfind Hdiff Hs.
  rewrite (handleDrop_existing cv fresh d id Hp Hid Hne).
  unfold dropExisting, contextFindElementById. rewrite Hfind, Hdiff, Hs, shallowCopy_eq.
  cbn [default from_option Datatypes.id].
  destruct (truthy (dt_element (dropTarget cv)));
    [destruct (negb _)|]; cbn; split; try reflexivity; do 2 eexists; reflexivity.
Qed.

Lemma drop_without_source_index_keeps_original_witness :
  deferredCalls
    (handleDrop Samples.intoB "u"
       (Parsed (mkElementData (Some "e") "text" None None (JString "A") None)))
  = [].
Proof.
  apply (drop_without_source_index_keeps_original Samples.intoB "u"
           (mkElementData (Some "e") "text" None None (JString "A") None)
           "e" (Samples.leafEl "e"));
    try reflexivity; discriminate.
Defined.

(** ** Routes: NavbarElement.tsx and BuilderNavbar.tsx *)

Lemma append_nil_l (t : string) : EmptyString +:+ t = t.
Proof. reflexivity. Qed.

Lemma append_cons (a : ascii) (s t : string) : String a s +:+ t = String a (s +:+ t).
Proof. reflexivity. Qed.

Lemma append_nil_r (s : string) : s +:+ EmptyString = s.
Proof. induction s as [|a s IH]; [reflexivity|]. rewrite append_cons, IH. reflexivity. Qed.

Lemma append_assoc (s t u : string) : (s +:+ t) +:+ u = s +:+ (t +:+ u).
Proof.
  induction s as [|a s IH]; [reflexivity|]. rewrite !append_cons, IH. reflexivity.
Qed.

(** Splitting at a separator that the first segment does not hold. *)
Lemma split_first_segment (c : ascii) (w rest : string) :
  hasChar c w = false ->
  split c (w +:+ String c rest) = w :: split c rest
  /\ split c w = [w].
Proof.
  induction w as [|a w IH]; intros Hw.
  - rewrite append_nil_l. cbn [split]. rewrite Ascii.eqb_refl. split; reflexivity.
  - cbn in Hw. apply orb_false_iff in Hw as [Ha Hw]. destruct (IH Hw) as [IH1 IH2].
    rewrite append_cons. cbn [split]. rewrite Ha, IH1, IH2. split; reflexivity.
Qed.

Lemma startsWith_slash_no_sep (a : ascii) (w sub : string) :
  Ascii.eqb a "/" = false -> startsWith (String a w) (String "/" sub) = false.
Proof. intros Ha. cbn. rewrite Ha. reflexivity. Qed.

(** A text that begins with a slash is not found inside a segment without
    slashes. *)
Lemma includesText_skip_segment (w s sub : string) :
  hasChar "/" w = false ->
  includesText (w +:+ s) (String "/" sub) = includesText s (String "/" sub).
Proof.
  induction w as [|a w IH]; intros Hw; [reflexivity|].
  cbn in Hw. apply orb_false_iff in Hw as [Ha Hw].
  rewrite append_cons. cbn [includesText].
  rewrite (startsWith_slash_no_sep a _ sub Ha), (IH Hw). reflexivity.
Qed.

(** X11: on a live site at [/site/<id>] or below, the cart link is
    [/site/<id>/cart], whatever follows the id in the path. *)
Theorem getSiteCartUrl_of_site_path (siteId rest : string) :
  hasChar "/" siteId = false -> segmentEnd rest ->
  NavbarElement.getSiteCartUrl ("/site/" +:+ siteId +:+ rest)
  = "/site/" +:+ siteId +:+ "/cart".
Proof.
  intros Hid Hrest. unfold NavbarElement.getSiteCartUrl.
  assert (Hinc : includesText ("/site/" +:+ siteId +:+ rest) "/site/" = true) by reflexivity.
  rewrite Hinc.
  assert (Hsplit : take 3 (split "/" ("/site/" +:+ siteId +:+ rest))
                   = [EmptyString; "site"; siteId]).
  { change ("/site/" +:+ siteId +:+ rest)
      with (String "/" ("site" +:+ String "/" (siteId +:+ rest))).
    cbn [split]. change (Ascii.eqb "/" "/") with true. cbv iota.
    destruct (split_first_segment "/" "site" (siteId +:+ rest) eq_refl) as [-> _].
    destruct Hrest as [-> | [more ->]].
    - rewrite append_nil_r.
      destruct (split_first_segment "/" siteId EmptyString Hid) as [_ ->]. reflexivity.
    - destruct (split_first_segment "/" siteId more Hid) as [-> _]. reflexivity. }
  rewrite Hsplit. reflexivity.
Qed.

Lemma getSiteCartUrl_of_site_path_witness :
  NavbarElement.getSiteCartUrl "/site/123/products/7" = "/site/123/cart".
Proof.
  apply (getSiteCartUrl_of_site_path "123" "/products/7");
    [reflexivity | right; eexists; reflexivity].
Defined.

(** In a route [/builder/<id><suffix>], a text [/c...] whose character [c]
    is not the one the id begins with is found in the suffix or not at
    all. *)
Lemma includesText_builder_route (w suffix : string) (c : ascii) (sub : string) :
  hasChar "/" w = false -> w <> EmptyString ->
  startsWith w (String c EmptyString) = false ->
  Ascii.eqb "b" c = false ->
  includesText ("/builder/" +:+ w +:+ suffix) (String "/" (String c sub))
  = includesText suffix (String "/" (String c sub)).
Proof.
  intros Hw Hne Hc Hb.
  destruct w as [|a w']; [congruence|].
  cbn [startsWith] in Hc. rewrite andb_true_r in Hc.
  rewrite <- (includesText_skip_segment (String a w') suffix (String c sub) Hw).
  change ("/builder/" +:+ String a w' +:+ suffix)
    with (String "/" (String "b" (String "u" (String "i" (String "l" (String "d"
            (String "e" (String "r" (String "/" (String a w' +:+ suffix)))))))))).
  rewrite append_cons.
  cbn [includesText startsWith]. rewrite Hb, Hc.
  reflexivity.
Qed.

Lemma websiteIdOf_builder_route (w rest : string) :
  hasChar "/" w = false -> w <> EmptyString -> segmentEnd rest ->
  BuilderNavbar.websiteIdOf ("/builder/" +:+ w +:+ rest) = Some w.
Proof.
  intros Hw Hne Hrest. unfold BuilderNavbar.websiteIdOf.
  assert (Hsplit : split "/" ("/builder/" +:+ w +:+ rest) !! 2%nat = Some w).
  { change ("/builder/" +:+ w +:+ rest)
      with (String "/" ("builder" +:+ String "/" (w +:+ rest))).
    cbn [split]. change (Ascii.eqb "/" "/") with true. cbv iota.
    destruct (split_first_segment "/" "builder" (w +:+ rest) eq_refl) as [-> _].
    destruct Hrest as [-> | [more ->]].
    - rewrite append_nil_r.
      destruct (split_first_segment "/" w EmptyString Hw) as [_ ->]. reflexivity.
    - destruct (split_first_segment "/" w more Hw) as [-> _]. reflexivity. }
  rewrite Hsplit. destruct (String.eqb w EmptyString) eqn:He; [|reflexivity].
  apply String.eqb_eq in He. contradiction.
Qed.

(** X12: choosing a tab of the builder navbar navigates to a route at
    which that same tab is the active one, for a website id that holds no
    slash and does not begin with p, o or s (the letters the tab routes
    begin with). *)
Theorem tab_change_round_trip (w rest tab suffix : string) :
  hasChar "/" w = false -> w <> EmptyString ->
  startsWith w "p" = false -> startsWith w "o" = false -> startsWith w "s" = false ->
  segmentEnd rest ->
  In (tab, suffix) tabRoutes ->
  BuilderNavbar.handleTabChange ("/builder/" +:+ w +:+ rest) tab
  = [ BuilderNavbar.SetActiveTab tab;
      BuilderNavbar.NavigateTo ("/builder/" +:+ w +:+ suffix) ]
  /\ BuilderNavbar.getActiveTabFromRoute ("/builder/" +:+ w +:+ suffix) = tab.
Proof.
  intros Hw Hne Hp Ho Hs Hrest Htab.
  unfold BuilderNavbar.handleTabChange, BuilderNavbar.getActiveTabFromRoute.
  rewrite (websiteIdOf_builder_route w rest Hw Hne Hrest).
  rewrite (includesText_builder_route w suffix "p" "roducts" Hw Hne Hp eq_refl).
  rewrite (includesText_builder_route w suffix "o" "rders" Hw Hne Ho eq_refl).
  rewrite (includesText_builder_route w suffix "p" "ages" Hw Hne Hp eq_refl).
  rewrite (includesText_builder_route w suffix "s" "ite-settings" Hw Hne Hs eq_refl).
  rewrite (includesText_builder_route w suffix "p" "ayment-settings" Hw Hne Hp eq_refl).
  rewrite (includesText_builder_route w suffix "s" "hipping-settings" Hw Hne Hs eq_refl).
  cbn in Htab.
  repeat (destruct Htab as [[= <- <-] | Htab];
          [ split; [| reflexivity];
            cbn [String.eqb Ascii.eqb Bool.eqb];
            rewrite ?append_assoc, ?append_nil_r; reflexivity |]).
  destruct Htab.
Qed.

Lemma tab_change_round_trip_witness :
  BuilderNavbar.getActiveTabFromRoute ("/builder/" +:+ "4f2a" +:+ "/orders") = "orders".
Proof.
  apply (tab_change_round_trip "4f2a" "/pages" "orders" "/orders");
    try reflexivity; try discriminate.
  - right. eexists. reflexivity.
  - cbn. tauto.
Defined.

(** X13: whatever the route, the tab shown as active is one that
    [handleTabChange] knows: choosing it again navigates, and does so to a
    route of the website id the path holds. *)
Theorem active_tab_is_navigable (path pathname websiteId : string) :
  BuilderNavbar.websiteIdOf pathname = Some websiteId ->
  exists suffix,
    In (BuilderNavbar.getActiveTabFromRoute path, suffix) tabRoutes
    /\ BuilderNavbar.handleTabChange pathname (BuilderNavbar.getActiveTabFromRoute path)
       = [ BuilderNavbar.SetActiveTab (BuilderNavbar.getActiveTabFromRoute path);
           BuilderNavbar.NavigateTo (("/builder/" +:+ websiteId) +:+ suffix) ].
Proof.
  intros Hid. unfold BuilderNavbar.handleTabChange. rewrite Hid.
  unfold BuilderNavbar.getActiveTabFromRoute.
  repeat match goal with
         | |- context [if includesText path ?t then _ else _] =>
             destruct (includesText path t)
         end;
    eexists; (split; [cbn; eauto 10 | cbn; rewrite ?append_nil_r; reflexivity]).
Qed.

Lemma active_tab_is_navigable_witness :
  exists suffix,
    In (BuilderNavbar.getActiveTabFromRoute "/builder/4f2a/pages", suffix) tabRoutes
    /\ BuilderNavbar.handleTabChange "/builder/4f2a/pages"
         (BuilderNavbar.getActiveTabFromRoute "/builder/4f2a/pages")
       = [ BuilderNavbar.SetActiveTab (BuilderNavbar.getActiveTabFromRoute "/builder/4f2a/pages");
           BuilderNavbar.NavigateTo (("/builder/" +:+ "4f2a") +:+ suffix) ].
Proof.
  exact (active_tab_is_navigable "/builder/4f2a/pages" "/builder/4f2a/pages" "4f2a" eq_refl).
Defined.

Lemma link_http_is_external (url : string) :
  startsWith url "http" = true ->
  startsWith url "/" = false /\ String.eqb url "#" = false.
Proof.
  destruct url as [|a url']; [discriminate|]. cbn [startsWith].
  intros H. apply andb_true_iff in H as [Ha _]. apply Ascii.eqb_eq in Ha. subst a.
  split; reflexivity.
Qed.

(** X14: in the builder a click on a navbar link does nothing; on a live
    site it does exactly one thing and closes the mobile menu: a link that
    begins with http is opened in a new tab and never navigated to, the
    link # leads to the root, and a link that begins with a slash is
    navigated to. *)
Theorem link_click_actions (url : string) :
  NavbarElement.handleLinkClick false url = []
  /\ exists action,
       NavbarElement.handleLinkClick true url
       = [ action; NavbarElement.SetMobileMenuOpen false ]
       /\ (startsWith url "http" = true -> action = NavbarElement.WindowOpen url "_blank")
       /\ (url = "#" -> action = NavbarElement.Navigate "/")
       /\ (startsWith url "/" = true -> action = NavbarElement.Navigate url).
Proof.
  split; [reflexivity|]. unfold NavbarElement.handleLinkClick.
  destruct (startsWith url "/") eqn:Hslash; cbn [orb].
  - eexists. split; [reflexivity|]. split; [|split].
    + intros H. destruct (link_http_is_external url H) as [H' _]. congruence.
    + intros ->. discriminate Hslash.
    + intros _. destruct (String.eqb url "#") eqn:Hh; [|reflexivity].
      apply String.eqb_eq in Hh. subst url. discriminate Hslash.
  - destruct (String.eqb url "#") eqn:Hh.
    + apply String.eqb_eq in Hh. subst url. eexists. split; [reflexivity|].
      split; [discriminate|]. split; [reflexivity | discriminate].
    + destruct (startsWith url "http") eqn:Hhttp; eexists; (split; [reflexivity|]);
        (split; [intros; first [reflexivity | discriminate]|]);
        (split; [intros ->; discriminate Hh | discriminate]).
Qed.

Lemma link_click_actions_witness :
  exists action,
    NavbarElement.handleLinkClick true "https://example.com"
    = [ action; NavbarElement.SetMobileMenuOpen false ]
    /\ action = NavbarElement.WindowOpen "https://example.com" "_blank".
Proof.
  destruct (link_click_actions "https://example.com") as (_ & action & Hrun & Hhttp & _).
  exists action. split; [exact Hrun | exact (Hhttp eq_refl)].
Defined.

(** ** Builder.tsx: the current page *)

Lemma find_some_in {A : Type} (p : A -> bool) (l : list A) (x : A) :
  List.find p l = Some x -> In x l /\ p x = true.
Proof. apply find_some. Qed.

(** X15: for a website with at least one page the effect sets the current
    page exactly once, to the id of a page of the website; it rewrites the
    URL only when the URL names no page, and then to the page it set. *)
Theorem selectCurrentPage_sets_existing_page
    (website : Website) (id : string) (pageId : option string) (ps : list Page) :
  pages (settings website) = Some ps -> ps <> [] ->
  let effects := selectCurrentPage website id pageId in
  exists page,
    In page ps
    /\ selectedIds effects = [ page_id page ]
    /\ (forall url, In (NavigateReplace url) effects ->
          truthy pageId = false /\ url = builderUrl id (page_id page)).
Proof.
  intros Hps Hne effects. unfold effects, selectCurrentPage. rewrite Hps.
  destruct ps as [|first others]; [contradiction|].
  destruct (truthy pageId) eqn:Hreq.
  - destruct (List.find _ (first :: others)) as [page|] eqn:Hfound.
    + destruct (find_some_in _ _ _ Hfound) as [Hin Hid]. apply String.eqb_eq in Hid.
      exists page. split; [exact Hin|]. rewrite <- Hid. split; [reflexivity|].
      intros url [H|[]]. discriminate H.
    + cbn [negb]. destruct (List.find page_isHomePage (first :: others)) as [home|] eqn:Hhome.
      * destruct (find_some_in _ _ _ Hhome) as [Hin _].
        exists home. split; [exact Hin|]. split; [reflexivity|].
        intros url [H|[H|[]]]; discriminate H.
      * exists first. split; [left; reflexivity|]. split; [reflexivity|].
        intros url [H|[H|[]]]; discriminate H.
  - cbn [negb]. destruct (List.find page_isHomePage (first :: others)) as [home|] eqn:Hhome.
    + destruct (find_some_in _ _ _ Hhome) as [Hin _].
      exists home. split; [exact Hin|]. split; [reflexivity|].
      intros url [H|[H|[H|[]]]]; try discriminate H.
      injection H as <-. split; reflexivity.
    + exists first. split; [left; reflexivity|]. split; [reflexivity|].
      intros url [H|[H|[H|[]]]]; try discriminate H.
      injection H as <-. split; reflexivity.
Qed.

Lemma selectCurrentPage_sets_existing_page_witness :
  exists page,
    In page Samples.twoPages
    /\ selectedIds (selectCurrentPage Samples.site "w1" (Some "gone")) = [ page_id page ].
Proof.
  destruct (selectCurrentPage_sets_existing_page Samples.site "w1" (Some "gone")
              Samples.twoPages eq_refl ltac:(discriminate))
    as (page & Hin & Hsel & _).
  exists page. split; [exact Hin | exact Hsel].
Defined.

(** X16: a page named in the URL that the website has is the one set, and
    then the required pages are not ensured; otherwise the first page
    marked as home page is set, or the first page when none is marked, and
    the required pages are ensured. *)
Theorem selectCurrentPage_priority
    (website : Website) (id : string) (pageId : option string) (ps : list Page) :
  pages (settings website) = Some ps -> ps <> [] ->
  let effects := selectCurrentPage website id pageId in
  let requested :=
    if truthy pageId
    then List.find (fun page => String.eqb (page_id page) (default EmptyString pageId)) ps
    else None in
  match requested with
  | Some page =>
      effects = [ SetCurrentPageId (page_id page) ]
  | None =>
      In RunEnsureRequiredPages effects
      /\ selectedIds effects
         = [ match List.find page_isHomePage ps with
             | Some home => page_id home
             | None => default EmptyString (page_id <$> head ps)
             end ]
  end.
Proof.
  intros Hps Hne effects requested. unfold effects, requested, selectCurrentPage.
  rewrite Hps. destruct ps as [|first others]; [contradiction|].
  destruct (truthy pageId) eqn:Hreq.
  - destruct (List.find _ (first :: others)) as [page|] eqn:Hfound.
    + destruct (find_some_in _ _ _ Hfound) as [_ Hid]. apply String.eqb_eq in Hid.
      rewrite Hid. reflexivity.
    + destruct (List.find page_isHomePage (first :: others)); cbn;
        (split; [tauto | reflexivity]).
  - destruct (List.find page_isHomePage (first :: others)); cbn;
      (split; [tauto | reflexivity]).
Qed.

Lemma selectCurrentPage_priority_witness :
  selectCurrentPage Samples.site "w1" (Some "about") = [ SetCurrentPageId "about" ].
Proof.
  exact (selectCurrentPage_priority Samples.site "w1" (Some "about") Samples.twoPages
           eq_refl ltac:(discriminate)).
Defined.

(** ** Builder.tsx: required pages, in general *)

Section RequiredPagesFacts.

Variable uuidv4 : nat -> string.

(** [ensureRequiredPages] is its three steps, and saves exactly when one of
    them changed the pages. *)
Lemma ensureRequiredPages_steps (website : Website) (n : nat) (ps : list Page) :
  pages (settings website) = Some ps ->
  ensureRequiredPages uuidv4 website n
  = (Some (mkEnsureOutcome (requiredSteps uuidv4 ps n).1.1 (requiredSteps uuidv4 ps n).1.2
             (if (requiredSteps uuidv4 ps n).1.2 then
                Some (mkSaveRequest (content website) (pageSettings website)
                        (mkSettings (Some (requiredSteps uuidv4 ps n).1.1)
                           (pagesContent (settings website))
                           (pagesSettings (settings website))
                           (theme (settings website)) (logoUrl (settings website))))
              else None)),
     (requiredSteps uuidv4 ps n).2).
Proof.
  intros Hps. unfold ensureRequiredPages, requiredSteps, titledStep, homeStep, isHomeLike.
  rewrite Hps.
  destruct (List.find (fun page => page_isHomePage page || titleIs "home" page) ps)
    as [home|]; [destruct (negb (page_isHomePage home))|];
    repeat match goal with
           | |- context [List.find (titleIs ?k) ?l] => destruct (List.find (titleIs k) l)
           end;
    reflexivity.
Qed.

Lemma find_app_some {A : Type} (p : A -> bool) (l extra : list A) (x : A) :
  List.find p l = Some x -> List.find p (l ++ extra) = Some x.
Proof. intros H. rewrite find_concat_cons, H. reflexivity. Qed.

Lemma find_app_one {A : Type} (p : A -> bool) (l : list A) (x : A) :
  List.find p l = None -> p x = true -> List.find p (l ++ [x]) = Some x.
Proof. intros H Hx. rewrite find_concat_cons, H. cbn. rewrite Hx. reflexivity. Qed.

(** After the home step the first page taken for the home page is marked
    as home page. *)
Lemma homeStep_marks (ps : list Page) (n : nat) :
  exists home,
    List.find isHomeLike (homeStep uuidv4 ps n).1.1 = Some home
    /\ page_isHomePage home = true.
Proof.
  unfold homeStep. destruct (List.find isHomeLike ps) as [h|] eqn:Hfind.
  - destruct (page_isHomePage h) eqn:Hflag; cbn [negb fst].
    + exists h. split; assumption.
    + clear Hflag. induction ps as [|a ps IH]; [discriminate|].
      cbn [List.find] in Hfind. cbn [List.map List.find].
      destruct (isHomeLike a) eqn:Ha.
      * injection Hfind as ->. rewrite String.eqb_refl.
        eexists. split; [reflexivity|]. reflexivity.
      * destruct (String.eqb (page_id a) (page_id h)).
        -- eexists. split; [reflexivity|]. reflexivity.
        -- rewrite Ha. exact (IH Hfind).
  - cbn [fst]. eexists. split; [apply find_app_one; [exact Hfind | reflexivity]|].
    reflexivity.
Qed.

Lemma titledStep_keeps_found (key title slug : string) (p : Page -> bool)
    (state : list Page * bool * nat) (x : Page) :
  List.find p state.1.1 = Some x ->
  List.find p (titledStep uuidv4 key title slug state).1.1 = Some x.
Proof.
  destruct state as [[ps ch] n]. unfold titledStep. cbn [fst].
  destruct (List.find (titleIs key) ps); cbn [fst]; [tauto|]. apply find_app_some.
Qed.

Lemma titledStep_finds (key title slug : string) (state : list Page * bool * nat) :
  titleIs key (mkPage EmptyString title slug false) = true ->
  exists page, List.find (titleIs key) (titledStep uuidv4 key title slug state).1.1 = Some page.
Proof.
  intros Htitle. destruct state as [[ps ch] n]. unfold titledStep.
  destruct (List.find (titleIs key) ps) as [page|] eqn:Hfind; cbn [fst].
  - exists page. exact Hfind.
  - eexists. apply find_app_one; [exact Hfind | exact Htitle].
Qed.

(** What the steps leave is complete: a marked home page first among the
    pages taken for the home page, a shop page and an about page. *)
Lemma requiredSteps_complete (ps : list Page) (n : nat) :
  (exists home, List.find isHomeLike (requiredSteps uuidv4 ps n).1.1 = Some home
                /\ page_isHomePage home = true)
  /\ (exists shop, List.find (titleIs "shop") (requiredSteps uuidv4 ps n).1.1 = Some shop)
  /\ (exists about, List.find (titleIs "about") (requiredSteps uuidv4 ps n).1.1 = Some about).
Proof.
  unfold requiredSteps. split; [|split].
  - destruct (homeStep_marks ps n) as (home & Hfind & Hflag). exists home.
    split; [|exact Hflag]. do 2 apply titledStep_keeps_found. exact Hfind.
  - destruct (titledStep_finds "shop" "Shop" "/shop" (homeStep uuidv4 ps n) eq_refl)
      as (shop & Hshop).
    exists shop. apply titledStep_keeps_found. exact Hshop.
  - apply titledStep_finds. reflexivity.
Qed.

(** On complete pages the steps change nothing and generate no id. *)
Lemma requiredSteps_on_complete (ps : list Page) (n : nat) (home shop about : Page) :
  List.find isHomeLike ps = Some home -> page_isHomePage home = true ->
  List.find (titleIs "shop") ps = Some shop ->
  List.find (titleIs "about") ps = Some about ->
  requiredSteps uuidv4 ps n = (ps, false, n).
Proof.
  intros Hhome Hflag Hshop Habout. unfold requiredSteps, homeStep, titledStep.
  rewrite Hhome, Hflag. cbn [negb]. rewrite Hshop, Habout. reflexivity.
Qed.

End RequiredPagesFacts.

(** X17: whatever pages a website has, after [ensureRequiredPages] there is
    a page marked as home page, a page titled shop and a page titled about
    (titles compared in lower case). *)
Theorem ensureRequiredPages_complete
    (uuidv4 : nat -> string) (website : Website) (n : nat) (ps : list Page) :
  pages (settings website) = Some ps ->
  exists outcome,
    fst (ensureRequiredPages uuidv4 website n) = Some outcome
    /\ (exists home, In home (updatedPages outcome) /\ page_isHomePage home = true)
    /\ (exists shop, In shop (updatedPages outcome) /\ titleIs "shop" shop = true)
    /\ (exists about, In about (updatedPages outcome) /\ titleIs "about" about = true).
Proof.
  intros Hps. rewrite (ensureRequiredPages_steps uuidv4 website n ps Hps).
  eexists. split; [reflexivity|]. cbn [updatedPages].
  destruct (requiredSteps_complete uuidv4 ps n)
    as ((home & Hhome & Hflag) & (shop & Hshop) & (about & Habout)).
  split; [|split].
  - exists home. split; [exact (proj1 (find_some_in _ _ _ Hhome)) | exact Hflag].
  - exists shop. exact (find_some_in _ _ _ Hshop).
  - exists about. exact (find_some_in _ _ _ Habout).
Qed.

Lemma ensureRequiredPages_complete_witness :
  exists outcome,
    fst (ensureRequiredPages pretty Samples.site 0) = Some outcome
    /\ (exists shop, In shop (updatedPages outcome) /\ titleIs "shop" shop = true).
Proof.
  destruct (ensureRequiredPages_complete pretty Samples.site 0 Samples.twoPages eq_refl)
    as (outcome & Hrun & _ & Hshop & _).
  exists outcome. split; [exact Hrun | exact Hshop].
Defined.

(** X18: [ensureRequiredPages] is idempotent for every website: run on a
    website that has the pages a first run left, it leaves the same pages,
    reports no change, saves nothing and generates no id. *)
Theorem ensureRequiredPages_idempotent
    (uuidv4 : nat -> string) (website website' : Website) (n m : nat)
    (outcome : EnsureOutcome) :
  fst (ensureRequiredPages uuidv4 website n) = Some outcome ->
  pages (settings website') = Some (updatedPages outcome) ->
  ensureRequiredPages uuidv4 website' m
  = (Some (mkEnsureOutcome (updatedPages outcome) false None), m).
Proof.
  intros Hrun Hps'.
  destruct (pages (settings website)) as [ps|] eqn:Hps;
    [|unfold ensureRequiredPages in Hrun; rewrite Hps in Hrun; discriminate Hrun].
  rewrite (ensureRequiredPages_steps uuidv4 website n ps Hps) in Hrun.
  cbn [fst] in Hrun. injection Hrun as <-. cbn [updatedPages] in Hps'.
  rewrite (ensureRequiredPages_steps uuidv4 website' m _ Hps').
  destruct (requiredSteps_complete uuidv4 ps n)
    as ((home & Hhome & Hflag) & (shop & Hshop) & (about & Habout)).
  rewrite (requiredSteps_on_complete uuidv4 _ m home shop about Hhome Hflag Hshop Habout).
  reflexivity.
Qed.

Lemma ensureRequiredPages_idempotent_witness :
  exists outcome,
    fst (ensureRequiredPages pretty Samples.site 0) = Some outcome
    /\ ensureRequiredPages pretty (afterEnsure pretty Samples.site 0) 1
       = (Some (mkEnsureOutcome (updatedPages outcome) false None), 1%nat).
Proof.
  eexists. split; [reflexivity|].
  apply (ensureRequiredPages_idempotent pretty Samples.site
           (afterEnsure pretty Samples.site 0) 0 1); reflexivity.
Defined.

Section KeepsPagesFacts.

Variable uuidv4 : nat -> string.

Lemma samePageButFlag_refl (ps : list Page) : Forall2 samePageButFlag ps ps.
Proof.
  induction ps as [|p ps IH]; constructor; [|exact IH]. repeat split. tauto.
Qed.

Lemma homeStep_keeps (ps : list Page) (n : nat) :
  keepsPages uuidv4 ps n 1 (homeStep uuidv4 ps n).
Proof.
  unfold homeStep. destruct (List.find isHomeLike ps) as [h|].
  - destruct (negb (page_isHomePage h)).
    + eexists _, []. rewrite app_nil_r. cbn [fst snd length].
      split; [reflexivity|]. split; [|repeat split; try lia; discriminate].
      clear. induction ps as [|p ps IH]; constructor; [|exact IH].
      destruct (String.eqb (page_id p) (page_id h)); repeat split; tauto.
    + exists ps, []. rewrite app_nil_r. cbn [fst snd length].
      split; [reflexivity|]. split; [apply samePageButFlag_refl|].
      repeat split; try lia.
  - eexists ps, [_]. cbn [fst snd length].
    split; [reflexivity|]. split; [apply samePageButFlag_refl|].
    repeat split; try lia; try discriminate.
Qed.

Lemma titledStep_keeps (key title slug : string) (ps : list Page) (n k : nat)
    (state : list Page * bool * nat) :
  keepsPages uuidv4 ps n k state ->
  keepsPages uuidv4 ps n (S k) (titledStep uuidv4 key title slug state).
Proof.
  destruct state as [[ps1 ch] m].
  intros (kept & added & Hps1 & Hkept & Hlen & Hm & Hids & Hsame).
  cbn [fst snd] in *. unfold titledStep.
  destruct (List.find (titleIs key) ps1).
  - exists kept, added. cbn [fst snd]. repeat split; try assumption. lia.
  - exists kept, (added ++ [mkPage (uuidv4 m) title slug false]). cbn [fst snd].
    rewrite List.length_app. cbn [length].
    split; [rewrite Hps1, <- app_assoc; reflexivity|].
    split; [exact Hkept|]. split; [lia|]. split; [lia|]. split; [|discriminate].
    rewrite List.map_app, Hids. cbn [List.map].
    replace (length added + 1)%nat with (S (length added)) by lia.
    rewrite seq_S, List.map_app. cbn [List.map]. rewrite Hm. reflexivity.
Qed.

Lemma requiredSteps_keeps (ps : list Page) (n : nat) :
  keepsPages uuidv4 ps n 3 (requiredSteps uuidv4 ps n).
Proof.
  unfold requiredSteps. do 2 apply titledStep_keeps. apply homeStep_keeps.
Qed.

End KeepsPagesFacts.

(** X19: [ensureRequiredPages] keeps every page the website has, in order,
    with its id, title and slug, and never takes the home flag from a
    page; it adds at most three pages, at the end, under the ids it
    generates, in the order it generates them; when it reports no change
    the pages are the ones it found and nothing is saved, and when it
    reports a change it saves. *)
Theorem ensureRequiredPages_keeps_pages
    (uuidv4 : nat -> string) (website : Website) (n : nat) (ps : list Page) :
  pages (settings website) = Some ps ->
  exists outcome kept added,
    ensureRequiredPages uuidv4 website n = (Some outcome, (n + length added)%nat)
    /\ updatedPages outcome = kept ++ added
    /\ Forall2 samePageButFlag ps kept
    /\ (length added <= 3)%nat
    /\ List.map page_id added = List.map uuidv4 (seq n (length added))
    /\ (hasChanged outcome = false -> updatedPages outcome = ps /\ saved outcome = None)
    /\ (hasChanged outcome = true -> exists r, saved outcome = Some r
                                               /\ pages (sr_settings r) = Some (kept ++ added)
                                               /\ sr_content r = content website).
Proof.
  intros Hps. rewrite (ensureRequiredPages_steps uuidv4 website n ps Hps).
  destruct (requiredSteps_keeps uuidv4 ps n)
    as (kept & added & Hall & Hkept & Hlen & Hn & Hids & Hsame).
  destruct (requiredSteps uuidv4 ps n) as [[ps3 ch] n3]. cbn [fst snd] in *.
  eexists _, kept, added. split; [rewrite Hn; reflexivity|].
  cbn [updatedPages hasChanged saved].
  split; [exact Hall|]. split; [exact Hkept|]. split; [exact Hlen|].
  split; [exact Hids|]. split.
  - intros ->. split; [exact (Hsame eq_refl) | reflexivity].
  - intros ->. eexists. split; [reflexivity|]. cbn. rewrite Hall. split; reflexivity.
Qed.

Lemma ensureRequiredPages_keeps_pages_witness :
  exists outcome kept added,
    ensureRequiredPages pretty Samples.site 0 = (Some outcome, (0 + length added)%nat)
    /\ updatedPages outcome = kept ++ added
    /\ Forall2 samePageButFlag Samples.twoPages kept
    /\ (length added <= 3)%nat.
Proof.
  destruct (ensureRequiredPages_keeps_pages pretty Samples.site 0 Samples.twoPages eq_refl)
    as (outcome & kept & added & Hrun & Hall & Hkept & Hlen & _).
  exists outcome, kept, added. repeat split; assumption.
Defined.

(** ** Saving a page: Builder.tsx and Shop.tsx *)

Lemma cloneElement_same (e : BuilderElement) : cloneElement e = e.
Proof.
  induction e as [i t c p | i t c p ch IH] using element_ind_nested; [reflexivity|].
  cbn [cloneElement el_id el_type el_content el_props el_children]. do 2 f_equal.
  induction IH as [|x xs Hx _ IHxs]; [reflexivity|].
  cbn [List.map]. rewrite Hx, IHxs. reflexivity.
Qed.

Lemma cloneElements_same (l : list BuilderElement) : List.map cloneElement l = l.
Proof.
  induction l as [|x xs IH]; [reflexivity|].
  cbn [List.map]. rewrite cloneElement_same, IH. reflexivity.
Qed.

Lemma cloned_content_same (m : gmap string (list BuilderElement)) :
  (List.map cloneElement) <$> m = m.
Proof.
  apply map_eq. intros k. rewrite lookup_fmap.
  destruct (m !! k) as [l|]; cbn; [rewrite cloneElements_same|]; reflexivity.
Qed.

Lemma cloned_settings_same (m : gmap string PageSettings) :
  clonePageSettings <$> m = m.
Proof.
  apply map_eq. intros k. rewrite lookup_fmap.
  destruct (m !! k) as [[t meta]|]; reflexivity.
Qed.

(** X20: saving a page in the builder writes the entries of that page only:
    the content and settings saved for every other page are the ones the
    website had, and the settings object saved carries no other key (no
    pages, theme or logo). The legacy content of the website is replaced by
    the elements saved exactly when the page is the first page marked as
    home page. *)
Theorem handleSaveComplete_writes_one_page
    (website : Website) (pid : string)
    (updatedElements : list BuilderElement) (updatedPageSettings : PageSettings) :
  pid <> EmptyString ->
  exists r,
    handleSaveComplete website (Some pid) updatedElements updatedPageSettings = Some r
    /\ (forall q, q <> pid ->
          (pagesContent (sr_settings r) ≫= fun m => m !! q)
          = (pagesContent (settings website) ≫= fun m => m !! q)
          /\ (pagesSettings (sr_settings r) ≫= fun m => m !! q)
             = (pagesSettings (settings website) ≫= fun m => m !! q))
    /\ pages (sr_settings r) = None
    /\ theme (sr_settings r) = None
    /\ logoUrl (sr_settings r) = None
    /\ sr_pageSettings r = updatedPageSettings
    /\ sr_content r
       = match pages (settings website) ≫= List.find page_isHomePage with
         | Some home =>
             if String.eqb (page_id home) pid then updatedElements else content website
         | None => content website
         end.
Proof.
  intros Hne. unfold handleSaveComplete. rewrite (truthy_some _ Hne).
  cbn [negb default from_option id]. eexists. split; [reflexivity|].
  cbn [sr_settings sr_content sr_pageSettings pagesContent pagesSettings pages theme logoUrl
       mbind option_bind].
  split; [|repeat split].
  - intros q Hq. rewrite !lookup_insert_ne by congruence.
    destruct (pagesContent (settings website)), (pagesSettings (settings website));
      cbn; rewrite ?cloned_content_same, ?cloned_settings_same, ?lookup_empty;
      split; reflexivity.
  - destruct (pages (settings website) ≫= List.find page_isHomePage) as [home|];
      [destruct (String.eqb (page_id home) pid)|]; reflexivity.
Qed.

Lemma handleSaveComplete_writes_one_page_witness :
  exists r,
    handleSaveComplete shopSite (Some "shop") [] (mkPageSettings "Shop" []) = Some r
    /\ (pagesContent (sr_settings r) ≫= fun m => m !! "home") = Some [Samples.heading]
    /\ sr_content r = [Samples.heading].
Proof.
  destruct (handleSaveComplete_writes_one_page shopSite "shop" [] (mkPageSettings "Shop" [])
              ltac:(discriminate))
    as (r & Hrun & Hother & _ & _ & _ & _ & Hcontent).
  exists r. split; [exact Hrun|]. split.
  - rewrite (proj1 (Hother "home" ltac:(discriminate))). reflexivity.
  - rewrite Hcontent. reflexivity.
Defined.

(** X21: what the shop editor saves it loads again: on a website that
    holds the pages of before and the content and settings saved, the shop
    page loads with exactly the elements and settings saved, be the
    elements none at all, and no id is generated. *)
Theorem shop_save_then_load
    (uuidv4 : nat -> string) (id : option string) (website website' : Website)
    (elements : list BuilderElement) (conf : PageSettings)
    (websiteName : string) (n : nat) (r : SaveRequest) :
  ShopPage.handleSaveComplete id website elements conf = Some r ->
  pages (settings website') = pages (settings website) ->
  pagesContent (settings website') = pagesContent (sr_settings r) ->
  pagesSettings (settings website') = pagesSettings (sr_settings r) ->
  ShopPage.loadShopPage uuidv4 website' websiteName n = ((elements, conf), n).
Proof.
  intros Hsave Hpages Hcontent Hsettings.
  unfold ShopPage.handleSaveComplete in Hsave.
  destruct (negb (truthy id)); [discriminate Hsave|].
  destruct (ShopPage.shopPage website) as [page|] eqn:Hshop; [|discriminate Hsave].
  destruct (String.eqb (page_id page) EmptyString) eqn:Hid; [discriminate Hsave|].
  injection Hsave as <-. cbn [sr_settings pagesContent pagesSettings] in Hcontent, Hsettings.
  unfold ShopPage.loadShopPage.
  assert (Hshop' : ShopPage.shopPage website' = Some page)
    by (unfold ShopPage.shopPage in *; rewrite Hpages; exact Hshop).
  rewrite Hshop', Hid, Hcontent, Hsettings.
  cbn [mbind option_bind]. rewrite !lookup_insert_eq. reflexivity.
Qed.

Lemma shop_save_then_load_witness :
  exists r,
    ShopPage.handleSaveComplete (Some "w1") shopSite [] (mkPageSettings "Shop" []) = Some r
    /\ ShopPage.loadShopPage pretty (saveDocument shopSite r) "My site" 0
       = (([], mkPageSettings "Shop" []), 0%nat).
Proof.
  eexists. split; [reflexivity|].
  eapply (shop_save_then_load pretty (Some "w1") shopSite _ [] (mkPageSettings "Shop" []));
    reflexivity.
Defined.

(** X22: the shop editor saves the entries of the shop page only: the
    content and settings of every other page and the legacy content of the
    website are saved as they were; it saves nothing without a route id or
    a page titled shop. *)
Theorem shop_save_writes_shop_page_only
    (id : option string) (website : Website)
    (elements : list BuilderElement) (conf : PageSettings) (r : SaveRequest) :
  ShopPage.handleSaveComplete id website elements conf = Some r ->
  exists page,
    truthy id = true
    /\ ShopPage.shopPage website = Some page
    /\ titleIs "shop" page = true
    /\ sr_content r = content website
    /\ (pagesContent (sr_settings r) ≫= fun m => m !! page_id page) = Some elements
    /\ (forall q, q <> page_id page ->
          (pagesContent (sr_settings r) ≫= fun m => m !! q)
          = (pagesContent (settings website) ≫= fun m => m !! q)
          /\ (pagesSettings (sr_settings r) ≫= fun m => m !! q)
             = (pagesSettings (settings website) ≫= fun m => m !! q)).
Proof.
  intros Hsave. unfold ShopPage.handleSaveComplete in Hsave.
  destruct (truthy id); cbn [negb] in Hsave; [|discriminate Hsave].
  destruct (ShopPage.shopPage website) as [page|] eqn:Hshop; [|discriminate Hsave].
  destruct (String.eqb (page_id page) EmptyString) eqn:Hid; [discriminate Hsave|].
  injection Hsave as <-. exists page.
  split; [reflexivity|]. split; [reflexivity|]. split.
  { unfold ShopPage.shopPage in Hshop.
    destruct (pages (settings website)) as [ps|]; [|discriminate Hshop].
    exact (proj2 (find_some_in _ _ _ Hshop)). }
  split; [reflexivity|].
  cbn [sr_settings pagesContent pagesSettings mbind option_bind].
  split; [apply lookup_insert_eq|].
  intros q Hq. rewrite !lookup_insert_ne by congruence.
  rewrite cloned_content_same, cloned_settings_same.
  destruct (pagesContent (settings website)), (pagesSettings (settings website));
    cbn; rewrite ?lookup_empty; split; reflexivity.
Qed.

Lemma shop_save_writes_shop_page_only_witness :
  exists page r,
    ShopPage.handleSaveComplete (Some "w1") shopSite [] (mkPageSettings "Shop" []) = Some r
    /\ ShopPage.shopPage shopSite = Some page
    /\ sr_content r = content shopSite.
Proof.
  pose (r := mkSaveRequest (content shopSite) (mkPageSettings "Shop" [])
               (mkSettings None
                  (Some (<["shop" := []]>
                           ((List.map cloneElement) <$> {[ "home" := [Samples.heading] ]})))
                  (Some (<["shop" := mkPageSettings "Shop" []]> (clonePageSettings <$> ∅)))
                  None None)).
  destruct (shop_save_writes_shop_page_only (Some "w1") shopSite []
              (mkPageSettings "Shop" []) r eq_refl)
    as (page & _ & Hshop & _ & Hcontent & _).
  exists page, r. repeat split; assumption.
Defined.

(** X23: without stored content the shop page loads with the default
    elements: seven nodes, in pre-order under the seven ids generated, so
    under ids that all differ when the generator does not repeat
    itself. *)
Theorem shop_defaults_have_fresh_ids
    (uuidv4 : nat -> string) (website : Website) (websiteName : string) (n : nat) :
  (forall i j : nat, uuidv4 i = uuidv4 j -> i = j) ->
  (forall page, ShopPage.shopPage website = Some page ->
                (pagesContent (settings website) ≫= fun m => m !! page_id page) = None) ->
  exists elements,
    ShopPage.loadShopPage uuidv4 website websiteName n
    = ((elements, mkPageSettings "Shop" []), (n + 7)%nat)
    /\ List.map el_id (preorder elements) = List.map uuidv4 (seq n 7)
    /\ NoDup (List.map el_id (preorder elements)).
Proof.
  intros Hinj Hnone. unfold ShopPage.loadShopPage.
  assert (Hstored :
    match ShopPage.shopPage website with
    | Some page =>
        if String.eqb (page_id page) EmptyString then None
        else
          match pagesContent (settings website) ≫= (fun m => m !! page_id page) with
          | Some stored0 =>
              Some (stored0,
                    default (mkPageSettings "Shop" [])
                      (pagesSettings (settings website) ≫= fun m => m !! page_id page))
          | None => None
          end
    | None => None
    end = None).
  { destruct (ShopPage.shopPage website) as [page|]; [|reflexivity].
    rewrite (Hnone page eq_refl). destruct (String.eqb _ _); reflexivity. }
  rewrite Hstored. eexists. split; [reflexivity|].
  assert (Hids : List.map el_id (preorder (ShopPage.defaultElements uuidv4 websiteName n))
                 = List.map uuidv4 (seq n 7)).
  { cbn. replace (n + 1)%nat with (S n) by lia.
    replace (n + 2)%nat with (S (S n)) by lia.
    replace (n + 3)%nat with (S (S (S n))) by lia.
    replace (n + 4)%nat with (S (S (S (S n)))) by lia.
    replace (n + 5)%nat with (S (S (S (S (S n))))) by lia.
    replace (n + 6)%nat with (S (S (S (S (S (S n)))))) by lia.
    reflexivity. }
  split; [exact Hids|]. rewrite Hids.
  apply NoDup_fmap_2; [intros i j; apply Hinj | apply NoDup_seq].
Qed.

Lemma shop_defaults_have_fresh_ids_witness :
  exists elements,
    ShopPage.loadShopPage pretty shopSite "My site" 0
    = ((elements, mkPageSettings "Shop" []), 7%nat)
    /\ NoDup (List.map el_id (preorder elements)).
Proof.
  destruct (shop_defaults_have_fresh_ids pretty shopSite "My site" 0
              (fun i j Hij => pretty_nat_inj i j Hij))
    as (elements & Hload & _ & Hnodup).
  - intros page [= <-]. reflexivity.
  - exists elements. split; [exact Hload | exact Hnodup].
Defined.

(** X24: on a route of the builder the "View Site" button opens the URL it
    was given, and without one the view of the website whose id the route
    holds. *)
Theorem full_preview_opens_edited_site (viewSiteUrl : option string) (w rest : string) :
  hasChar "/" w = false -> w <> EmptyString -> segmentEnd rest ->
  BuilderNavbar.handleOpenFullPreview viewSiteUrl ("/builder/" +:+ w +:+ rest)
  = [ BuilderNavbar.OpenInNewTab
        (if truthy viewSiteUrl then default EmptyString viewSiteUrl else "/view/" +:+ w) ].
Proof.
  intros Hw Hne Hrest. unfold BuilderNavbar.handleOpenFullPreview.
  rewrite (websiteIdOf_builder_route w rest Hw Hne Hrest).
  destruct (truthy viewSiteUrl); reflexivity.
Qed.

Lemma full_preview_opens_edited_site_witness :
  BuilderNavbar.handleOpenFullPreview None "/builder/4f2a/pages"
  = [ BuilderNavbar.OpenInNewTab "/view/4f2a" ].
Proof.
  apply (full_preview_opens_edited_site None "4f2a" "/pages");
    [reflexivity | discriminate | right; eexists; reflexivity].
Defined.
